(** * Currency_Exchange: the exchange client and its interactive shell

    A shallow embedding of [main.py]: the class [CurrencyExchange] with its
    four query methods, and the function [main] that drives one of them from
    console input.

    Python values are embedded as follows.
    - [str] is [string]; [int] is [Z].
    - [float], and the builtins whose behaviour depends on the interpreter
      ([int(s)], [float(s)], the formatting of a float, the JSON encoder's
      string escaping) are an interface, [Builtins]; everything proved below
      holds for every implementation of it.
    - A method that can raise returns an [Outcome]; effects (console, network,
      the object store) are threaded through a state monad [M] over [World].
    - The module [api], which holds the two constants [API_URL] and
      [TOKEN_KEY], is not part of the sources: both are section variables,
      and so is the remote service, [remote]. *)

From Stdlib Require Import ZArith List String Ascii Bool Lia.
From Stdlib Require Import DecimalString.
From Stdlib Require DecimalPos DecimalFacts.
Import ListNotations.

#[local] Set Warnings "-register-all".

Local Open Scope Z_scope.
Local Open Scope string_scope.

(** ** Strings and integers *)

Definition nl : string := String (ascii_of_nat 10) EmptyString.

Definition dquote : string := String (ascii_of_nat 34) EmptyString.

(** [str(z)] for an [int], which is also what an f-string field [{z}] yields:
    the decimal digits, a leading minus sign for a negative number. (CPython's
    cap on the number of digits it converts, 4300 by default, is not
    modelled.) *)
Definition str_int (z : Z) : string := NilZero.string_of_int (Z.to_int z).

(** [s.split(sep)] for a one-character separator: every occurrence cuts, so a
    string with n separators gives n + 1 parts, empty ones included. *)
Fixpoint split (sep : ascii) (s : string) : list string :=
  match s with
  | EmptyString => [EmptyString]
  | String c rest =>
      if Ascii.eqb c sep then EmptyString :: split sep rest
      else match split sep rest with
           | [] => [String c EmptyString]
           | part :: parts => String c part :: parts
           end
  end.

Definition hyphen : ascii := ascii_of_nat 45.

(** [c in s] for a one-character [c]. *)
Fixpoint contains (c : ascii) (s : string) : bool :=
  match s with
  | EmptyString => false
  | String x rest => Ascii.eqb x c || contains c rest
  end.

(** ** The interpreter's builtins *)

Class Builtins : Type := {
  (** the type [float] *)
  pyfloat : Type;
  (** [int(s)] on a [str]; [None] stands for [ValueError] *)
  py_int : string -> option Z;
  (** [float(s)] on a [str]; [None] stands for [ValueError] *)
  py_float : string -> option pyfloat;
  (** an f-string field [{x}] holding a float *)
  format_float : pyfloat -> string;
  (** the JSON encoder's text of a float *)
  json_float : pyfloat -> string;
  (** the JSON encoder's quoted, escaped text of a [str] *)
  json_string : string -> string
}.

(** ** Exceptions and outcomes *)

Inductive exn : Type :=
| ValueError
| EOFError
| KeyError (key : string)
| TypeError
| JSONDecodeError
| ConnectionError.

Inductive Outcome (A : Type) : Type :=
| Return (a : A)
| Raise (e : exn).

Arguments Return {A} a.
Arguments Raise {A} e.

(** ** Python objects that travel through the program *)

Section Values.

Context {B : Builtins}.

(** What [Response.json()] can produce, and with [PStr] what the methods
    return. A [dict] keeps its items in insertion order. *)
Inductive pyobj : Type :=
| PNone
| PBool (b : bool)
| PInt (z : Z)
| PFloat (x : pyfloat)
| PStr (s : string)
| PList (xs : list pyobj)
| PDict (items : list (string * pyobj)).

Fixpoint lookup (key : string) (items : list (string * pyobj)) : option pyobj :=
  match items with
  | [] => None
  | (k, v) :: rest => if String.eqb k key then Some v else lookup key rest
  end.

(** [o[key]] for a [str] key: [KeyError] on a dict without it, [TypeError] on
    anything that is not a dict. *)
Definition getitem (o : pyobj) (key : string) : Outcome pyobj :=
  match o with
  | PDict items =>
      match lookup key items with
      | Some v => Return v
      | None => Raise (KeyError key)
      end
  | _ => Raise TypeError
  end.

Fixpoint spaces (n : nat) : string :=
  match n with
  | O => EmptyString
  | S k => "  " ++ spaces k
  end.

Definition newline_indent (level : nat) : string := nl ++ spaces level.

(** [json.dumps(o, indent=2)], at nesting depth [level]. *)
Fixpoint dumps_at (level : nat) (o : pyobj) {struct o} : string :=
  match o with
  | PNone => "null"
  | PBool true => "true"
  | PBool false => "false"
  | PInt z => str_int z
  | PFloat x => json_float x
  | PStr s => json_string s
  | PList [] => "[]"
  | PList xs =>
      "[" ++ newline_indent (S level)
          ++ String.concat ("," ++ newline_indent (S level))
               (map (dumps_at (S level)) xs)
          ++ newline_indent level ++ "]"
  | PDict [] => "{}"
  | PDict items =>
      "{" ++ newline_indent (S level)
          ++ String.concat ("," ++ newline_indent (S level))
               (map (fun kv => json_string (fst kv) ++ ": " ++ dumps_at (S level) (snd kv))
                    items)
          ++ newline_indent level ++ "}"
  end.

Definition json_dumps (o : pyobj) : string := dumps_at 0 o.

End Values.

(** ** The world the program runs in *)

(** An instance of class [CurrencyExchange]: the two attributes that
    [__init__] sets. *)
Record CurrencyExchange : Type := mkCurrencyExchange {
  token : string;
  url : string
}.

Section Program.

Context {B : Builtins}.

(** The constants of module [api]. *)
Variable API_URL : string.
Variable TOKEN_KEY : string.

(** What [requests.get] hands back: the status code, and what [.json()]
    decodes the body to ([None] when the body is not JSON). *)
Record Response : Type := mkResponse {
  status_code : Z;
  json_body : option pyobj
}.

(** The remote service and the transport, as [requests.get] sees them: from
    the requests served so far and the URL asked for, the response, or [None]
    when the transport fails. *)
Variable remote : list string -> string -> option Response.

Inductive Event : Type :=
| Prompted (text : string)
| Printed (v : pyobj).

(** [objects] is the store of client instances, addressed by reference, and
    [allocated] the next free reference; [stdin] the lines still to be read;
    [console] what was written, oldest first; [sent] the URLs of the GET
    requests issued, oldest first. *)
Record World : Type := mkWorld {
  objects : nat -> CurrencyExchange;
  allocated : nat;
  stdin : list string;
  console : list Event;
  sent : list string
}.

Definition M (A : Type) : Type := World -> Outcome A * World.

Definition ret {A : Type} (a : A) : M A := fun w => (Return a, w).

Definition raise {A : Type} (e : exn) : M A := fun w => (Raise e, w).

Definition bind {A C : Type} (m : M A) (k : A -> M C) : M C :=
  fun w =>
    match m w with
    | (Return a, w') => k a w'
    | (Raise e, w') => (Raise e, w')
    end.

Notation "x <- m ;; k" := (bind m (fun x => k))
  (at level 61, m at next level, right associativity).

Definition lift {A : Type} (o : Outcome A) : M A := fun w => (o, w).

(** [input(prompt)]: writes the prompt, reads one line. *)
Definition input (prompt : string) : M string :=
  fun w =>
    let w' := mkWorld (objects w) (allocated w) (tl (stdin w))
                      (console w ++ [Prompted prompt])%list (sent w) in
    match stdin w with
    | [] => (Raise EOFError, w')
    | line :: _ => (Return line, w')
    end.

(** [print(v)]. *)
Definition print (v : pyobj) : M unit :=
  fun w =>
    (Return tt,
     mkWorld (objects w) (allocated w) (stdin w)
             (console w ++ [Printed v])%list (sent w)).

(** [requests.get(u)]. *)
Definition requests_get (u : string) : M Response :=
  fun w =>
    let w' := mkWorld (objects w) (allocated w) (stdin w) (console w)
                      (sent w ++ [u])%list in
    match remote (sent w) u with
    | Some r => (Return r, w')
    | None => (Raise ConnectionError, w')
    end.

(** [result.json()]. *)
Definition Response_json (result : Response) : M pyobj :=
  match json_body result with
  | Some o => ret o
  | None => raise JSONDecodeError
  end.

Definition int_of (s : string) : M Z :=
  match py_int s with
  | Some z => ret z
  | None => raise ValueError
  end.

Definition float_of (s : string) : M pyfloat :=
  match py_float s with
  | Some x => ret x
  | None => raise ValueError
  end.

(** The attribute reads [self.token] and [self.url]. *)
Definition self_token (self : nat) : M string :=
  fun w => (Return (token (objects w self)), w).

Definition self_url (self : nat) : M string :=
  fun w => (Return (url (objects w self)), w).

(** ** Class [CurrencyExchange] *)

(** [CurrencyExchange(token)]: a fresh instance, initialised by [__init__]. *)
Definition CurrencyExchange_init (tok : string) : M nat :=
  fun w =>
    let self := allocated w in
    (Return self,
     mkWorld (fun r => if Nat.eqb r self then mkCurrencyExchange tok API_URL
                       else objects w r)
             (S self) (stdin w) (console w) (sent w)).

Definition request_error (result : Response) : pyobj :=
  PStr ("Request error with status code: " ++ str_int (status_code result)).

Definition get_ex_rates (self : nat) (currency : string) : M pyobj :=
  base <- self_url self ;;
  tok <- self_token self ;;
  result <- requests_get (base ++ tok ++ "/latest/" ++ currency) ;;
  if (status_code result =? 200)%Z then
    body <- Response_json result ;;
    rates <- lift (getitem body "conversion_rates") ;;
    ret (PStr (json_dumps rates))
  else ret (request_error result).

Definition get_ex_rate_for_currencies (self : nat) (convert_to convert_from : string)
  : M pyobj :=
  base <- self_url self ;;
  tok <- self_token self ;;
  result <- requests_get (base ++ tok ++ "/pair/" ++ convert_from ++ "/" ++ convert_to) ;;
  if (status_code result =? 200)%Z then
    body <- Response_json result ;;
    lift (getitem body "conversion_rate")
  else ret (request_error result).

Definition exchange_from_to (self : nat) (convert_from convert_to : string)
  (amount : pyfloat) : M pyobj :=
  base <- self_url self ;;
  tok <- self_token self ;;
  result <- requests_get (base ++ tok ++ "/pair/" ++ convert_from ++ "/" ++ convert_to
                               ++ "/" ++ format_float amount) ;;
  if (status_code result =? 200)%Z then
    body <- Response_json result ;;
    lift (getitem body "conversion_result")
  else ret (request_error result).

Definition get_ex_rates_at_specific_date (self : nat) (currency : string)
  (year month day : Z) : M pyobj :=
  base <- self_url self ;;
  tok <- self_token self ;;
  result <- requests_get (base ++ tok ++ "/history/" ++ currency ++ "/" ++ str_int year
                               ++ "/" ++ str_int month ++ "/" ++ str_int day) ;;
  if (status_code result =? 200)%Z then
    body <- Response_json result ;;
    rates <- lift (getitem body "conversion_rates") ;;
    ret (PStr (json_dumps rates))
  else ret (request_error result).

(** ** The interactive shell *)

Definition iso_note : string :=
  "We use ISO 4217 Three Letter Currency Codes - e.g. USD for US Dollars, EUR for Euro etc.".

Definition menu_prompt : string :=
  "What do you want to know? Please enter the number of your option" ++ nl
  ++ "1. Find out the actual exchange rate for a specific currency" ++ nl
  ++ "2. Find out the actual exchange rate for a currency pair" ++ nl
  ++ "3. Find out the amount of money when exchanging one currency for another" ++ nl
  ++ "4. Find out the exchange rate for specific date" ++ nl
  ++ "Your answer: ".

Definition currency_prompt : string :=
  "What currency?" ++ nl ++ iso_note ++ nl ++ "Your answer: ".

Definition rate_prompt : string :=
  "What currency rate do you want to know?" ++ nl ++ iso_note ++ nl ++ "Your answer: ".

Definition relative_prompt : string :=
  "Relative to what currency?" ++ nl ++ "Your answer: ".

Definition amount_prompt : string :=
  "What amount?" ++ nl ++ "Your answer: ".

Definition date_prompt : string :=
  "What date? Please enter your date in format YYYY-MM-DD".

Definition main : M unit :=
  exchanger <- CurrencyExchange_init TOKEN_KEY ;;
  answer <- input menu_prompt ;;
  user_input <- int_of answer ;;
  if (user_input =? 1)%Z then
    currency <- input currency_prompt ;;
    out <- get_ex_rates exchanger currency ;;
    print out
  else if (user_input =? 2)%Z then
    currency_from <- input rate_prompt ;;
    currency_to <- input relative_prompt ;;
    out <- get_ex_rate_for_currencies exchanger currency_from currency_to ;;
    print out
  else if (user_input =? 3)%Z then
    currency_from <- input rate_prompt ;;
    currency_to <- input relative_prompt ;;
    amount <- input amount_prompt ;;
    x <- float_of amount ;;
    out <- exchange_from_to exchanger currency_from currency_to x ;;
    print out
  else if (user_input =? 4)%Z then
    currency <- input rate_prompt ;;
    date <- input date_prompt ;;
    match split hyphen date with
    | [year; month; day] =>
        y <- int_of year ;;
        m <- int_of month ;;
        d <- int_of day ;;
        out <- get_ex_rates_at_specific_date exchanger currency y m d ;;
        print out
    | _ => raise ValueError
    end
  else print (PStr "Invalid input").

(** ** Sequences of method calls *)

Inductive Call : Type :=
| Call_get_ex_rates (self : nat) (currency : string)
| Call_get_ex_rate_for_currencies (self : nat) (convert_to convert_from : string)
| Call_exchange_from_to (self : nat) (convert_from convert_to : string) (amount : pyfloat)
| Call_get_ex_rates_at_specific_date (self : nat) (currency : string) (year month day : Z).

Definition invoke (c : Call) : M pyobj :=
  match c with
  | Call_get_ex_rates self currency => get_ex_rates self currency
  | Call_get_ex_rate_for_currencies self convert_to convert_from =>
      get_ex_rate_for_currencies self convert_to convert_from
  | Call_exchange_from_to self convert_from convert_to amount =>
      exchange_from_to self convert_from convert_to amount
  | Call_get_ex_rates_at_specific_date self currency year month day =>
      get_ex_rates_at_specific_date self currency year month day
  end.

(** A caller that makes the calls one after the other, whatever each one
    returns or raises, and keeps the outcomes. *)
Fixpoint invoke_all (calls : list Call) (w : World) : list (Outcome pyobj) * World :=
  match calls with
  | [] => ([], w)
  | c :: rest =>
      let (o, w1) := invoke c w in
      let (os, w2) := invoke_all rest w1 in
      (o :: os, w2)
  end.

(** ** Observations used in the statements below *)

(** The URL [f'{self.url}{self.token}{path}'] for the client at [self]. *)
Definition endpoint (w : World) (self : nat) (path : string) : string :=
  url (objects w self) ++ token (objects w self) ++ path.

(** The world once the request [u] has gone out: nothing else changes. *)
Definition after_request (w : World) (u : string) : World :=
  mkWorld (objects w) (allocated w) (stdin w) (console w) (sent w ++ [u])%list.

(** What [print] wrote, prompts left out. *)
Definition printed (events : list Event) : list pyobj :=
  flat_map (fun e => match e with Printed v => [v] | Prompted _ => [] end) events.

(** Whether the text typed at the date prompt splits at its hyphens into
    three parts that [int] reads. *)
Definition date_well_formed (date : string) : bool :=
  match split hyphen date with
  | [year; month; day] =>
      match py_int year, py_int month, py_int day with
      | Some _, Some _, Some _ => true
      | _, _, _ => false
      end
  | _ => false
  end.

(** Whether a decoded body is a JSON object, the only kind of value the
    methods can index by a key. *)
Definition is_dict (o : pyobj) : bool :=
  match o with
  | PDict _ => true
  | _ => false
  end.

(** Whether the lines waiting on the console answer every prompt of the
    option they select, in a form the shell can parse: a selector from 1 to 4
    that [int] reads, then as many lines as the option prompts for, with an
    amount that [float] reads for option 3 and a well-formed date for
    option 4. *)
Definition answers_complete (lines : list string) : bool :=
  match lines with
  | [] => false
  | answer :: rest =>
      match py_int answer with
      | None => false
      | Some n =>
          if (n =? 1)%Z then
            match rest with
            | _ :: _ => true
            | _ => false
            end
          else if (n =? 2)%Z then
            match rest with
            | _ :: _ :: _ => true
            | _ => false
            end
          else if (n =? 3)%Z then
            match rest with
            | _ :: _ :: amount :: _ =>
                match py_float amount with
                | Some _ => true
                | None => false
                end
            | _ => false
            end
          else if (n =? 4)%Z then
            match rest with
            | _ :: date :: _ => date_well_formed date
            | _ => false
            end
          else false
      end
  end.

(** The client a call is made on. *)
Definition receiver (c : Call) : nat :=
  match c with
  | Call_get_ex_rates self _ => self
  | Call_get_ex_rate_for_currencies self _ _ => self
  | Call_exchange_from_to self _ _ _ => self
  | Call_get_ex_rates_at_specific_date self _ _ _ _ => self
  end.

(** How many lines the shell reads after the selector [n]: one per prompt of
    the option, none for a selector that is no option. *)
Definition prompts_after (n : Z) : nat :=
  if (n =? 1)%Z then 1
  else if (n =? 2)%Z then 2
  else if (n =? 3)%Z then 3
  else if (n =? 4)%Z then 2
  else 0.

End Program.

(** ** A concrete interpreter fragment, for running the program

    An implementation of [Builtins] on ASCII text, used only to run the
    program on concrete input. [int] reads what CPython's [int(s)] reads:
    surrounding blanks, a sign, decimal digits with single underscores between
    them. A float is a plain decimal number, kept as its sign, whole part and
    fractional digits; [float] reads [ddd], [ddd.ddd], [ddd.] and [.ddd] with
    an optional sign, and the formatting writes the number back with at least
    one fractional digit, which is CPython's text for decimals of up to 15
    significant digits between 1e-4 and 1e16. Exponents, [inf] and [nan],
    longer numbers and text outside ASCII are outside the fragment. *)

Module Sample.

Definition is_digit (c : ascii) : bool :=
  (48 <=? nat_of_ascii c)%nat && (nat_of_ascii c <=? 57)%nat.

Definition is_blank (c : ascii) : bool :=
  let n := nat_of_ascii c in
  (n =? 32)%nat || ((9 <=? n)%nat && (n <=? 13)%nat) || ((28 <=? n)%nat && (n <=? 31)%nat).

Definition digit_value (c : ascii) : Z := Z.of_nat (nat_of_ascii c - 48).

Fixpoint lstrip (s : string) : string :=
  match s with
  | EmptyString => EmptyString
  | String c rest => if is_blank c then lstrip rest else s
  end.

Fixpoint rstrip (s : string) : string :=
  match s with
  | EmptyString => EmptyString
  | String c rest =>
      match rstrip rest with
      | EmptyString => if is_blank c then EmptyString else String c EmptyString
      | kept => String c kept
      end
  end.

Definition strip (s : string) : string := lstrip (rstrip s).

(** Digits with single underscores between them; [after_digit] tells whether
    the previous character was a digit. *)
Fixpoint read_digits (s : string) (acc : Z) (after_digit : bool) : option Z :=
  match s with
  | EmptyString => if after_digit then Some acc else None
  | String c rest =>
      if is_digit c then read_digits rest (10 * acc + digit_value c) true
      else if Ascii.eqb c "_"%char && after_digit then read_digits rest acc false
      else None
  end.

Definition split_sign (s : string) : bool * string :=
  match s with
  | String "-"%char rest => (true, rest)
  | String "+"%char rest => (false, rest)
  | _ => (false, s)
  end.

Definition int_of_str (s : string) : option Z :=
  let (negative, body) := split_sign (strip s) in
  match read_digits body 0 false with
  | Some z => Some (if negative then - z else z)
  | None => None
  end.

Record decimal : Type := mkDecimal {
  negative : bool;
  whole : Z;
  fraction : string
}.

(** The digits of a fractional part, its single underscores between digits
    dropped; the empty text is a fractional part too. *)
Fixpoint fraction_digits (s : string) (after_digit : bool) : option string :=
  match s with
  | EmptyString => if after_digit then Some EmptyString else None
  | String c rest =>
      if is_digit c then option_map (String c) (fraction_digits rest true)
      else if Ascii.eqb c "_"%char && after_digit then fraction_digits rest false
      else None
  end.

(** Drops the zeros that end a run of fractional digits. *)
Fixpoint trim_zeros (s : string) : string :=
  match s with
  | EmptyString => EmptyString
  | String c rest =>
      match trim_zeros rest with
      | EmptyString => if Ascii.eqb c "0"%char then EmptyString else String c EmptyString
      | kept => String c kept
      end
  end.

Definition point : ascii := ascii_of_nat 46.

Definition float_of_str (s : string) : option decimal :=
  let (neg, body) := split_sign (strip s) in
  match split point body with
  | [w] =>
      match read_digits w 0 false with
      | Some z => Some (mkDecimal neg z EmptyString)
      | None => None
      end
  | [w; f] =>
      match (if String.eqb w EmptyString then Some 0 else read_digits w 0 false),
            (if String.eqb f EmptyString then Some EmptyString else fraction_digits f false)
      with
      | Some z, Some digits =>
          if String.eqb (w ++ f) EmptyString then None
          else Some (mkDecimal neg z (trim_zeros digits))
      | _, _ => None
      end
  | _ => None
  end.

Definition float_text (x : decimal) : string :=
  (if negative x then "-" else EmptyString)
  ++ str_int (whole x) ++ "."
  ++ (if String.eqb (fraction x) EmptyString then "0" else fraction x).

Definition hex_digit (n : nat) : ascii :=
  ascii_of_nat (if (n <? 10)%nat then 48 + n else 87 + n).

(** The JSON encoder's escapes on ASCII. *)
Definition escape_char (c : ascii) : string :=
  let n := nat_of_ascii c in
  if (n =? 34)%nat then "\" ++ dquote
  else if (n =? 92)%nat then "\\"
  else if (n =? 10)%nat then "\n"
  else if (n =? 13)%nat then "\r"
  else if (n =? 9)%nat then "\t"
  else if (n =? 8)%nat then "\b"
  else if (n =? 12)%nat then "\f"
  else if (n <? 32)%nat || (126 <? n)%nat then
    "\u00" ++ String (hex_digit (n / 16)) (String (hex_digit (n mod 16)) EmptyString)
  else String c EmptyString.

Fixpoint escape (s : string) : string :=
  match s with
  | EmptyString => EmptyString
  | String c rest => escape_char c ++ escape rest
  end.

Definition quote (s : string) : string := dquote ++ escape s ++ dquote.

Definition builtins : Builtins := {|
  pyfloat := decimal;
  py_int := int_of_str;
  py_float := float_of_str;
  format_float := float_text;
  json_float := float_text;
  json_string := quote
|}.

(** The float whose decimal text is [w.f]. *)
Definition number (w : Z) (f : string) : @pyobj builtins :=
  @PFloat builtins (mkDecimal false w f).

(** A service that answers every request with [reply]. *)
Definition always (reply : @Response builtins)
  : list string -> string -> option (@Response builtins) :=
  fun _ _ => Some reply.

Definition API_URL : string := "https://rates.example/v6/".

Definition TOKEN_KEY : string := "secret".

(** A world with nothing written or sent yet, and [lines] waiting on the
    console. *)
Definition world (lines : list string) : @World builtins :=
  mkWorld (fun _ => mkCurrencyExchange EmptyString EmptyString) 0 lines [] [].

(** A world that already holds one client, at reference 0. *)
Definition client_world : @World builtins :=
  mkWorld (fun _ => mkCurrencyExchange TOKEN_KEY API_URL) 1 [] [] [].

(** A service that cannot be reached. *)
Definition down : list string -> string -> option (@Response builtins) :=
  fun _ _ => None.

(** The shell run on [lines] against a service that always answers [reply]. *)
Definition run (reply : @Response builtins) (lines : list string)
  : Outcome unit * @World builtins :=
  main API_URL TOKEN_KEY (always reply) (world lines).

End Sample.

(** ** Properties of the client and of the shell *)

Section Properties.

Context {B : Builtins}.

Variable API_URL : string.
Variable TOKEN_KEY : string.
Variable remote : list string -> string -> option Response.

Ltac unfold_method :=
  unfold get_ex_rates, get_ex_rate_for_currencies, exchange_from_to,
    get_ex_rates_at_specific_date, bind, self_url, self_token, requests_get,
    endpoint; cbn [fst snd sent objects].

Ltac unfold_body :=
  unfold Response_json, lift, getitem, bind, ret, raise; cbn [fst snd].

(** Every path through a method body, once the request has been made. *)
Ltac method_world :=
  intros; unfold_method;
  destruct (remote _ _) as [r|]; [|reflexivity];
  destruct (status_code r =? 200)%Z; [|reflexivity];
  unfold_body;
  destruct (json_body r) as [[| | | | | |items]|]; try reflexivity;
  destruct (lookup _ items); reflexivity.

(** The second of two identical calls, given [H]: the service answers alike. *)
Ltac same_reply H :=
  unfold_method; unfold after_request, endpoint in H |- *;
  cbn [sent objects] in H |- *; rewrite H; clear H;
  destruct (remote _ _) as [r|]; [|reflexivity];
  destruct (status_code r =? 200)%Z; [|reflexivity];
  unfold_body;
  destruct (json_body r) as [[| | | | | |items]|]; try reflexivity;
  destruct (lookup _ items); reflexivity.

(** *** Strings *)

Lemma append_assoc (a b c : string) : (a ++ b) ++ c = a ++ b ++ c.
Proof.
  induction a as [|ch a IH]; simpl; [reflexivity|].
  now rewrite IH.
Qed.

Lemma append_cancel_l (p a b : string) : p ++ a = p ++ b -> a = b.
Proof.
  induction p as [|ch p IH]; simpl; intros H; [exact H|].
  injection H as H. now apply IH.
Qed.

Lemma append_same_length (a b c d : string) :
  String.length a = String.length b -> a ++ c = b ++ d -> a = b.
Proof.
  revert b. induction a as [|x a IH]; intros [|y b]; simpl; intros Hlen Heq;
    try discriminate; [reflexivity|].
  injection Hlen as Hlen. injection Heq as Hx Heq.
  subst y. f_equal. now apply IH.
Qed.

(** *** The world after a method call *)

Lemma get_ex_rates_world (self : nat) (currency : string) (w : World) :
  snd (get_ex_rates remote self currency w)
  = after_request w (endpoint w self ("/latest/" ++ currency)).
Proof. unfold after_request. method_world. Qed.

Lemma get_ex_rate_for_currencies_world (self : nat) (convert_to convert_from : string)
  (w : World) :
  snd (get_ex_rate_for_currencies remote self convert_to convert_from w)
  = after_request w (endpoint w self ("/pair/" ++ convert_from ++ "/" ++ convert_to)).
Proof. unfold after_request. method_world. Qed.

Lemma exchange_from_to_world (self : nat) (convert_from convert_to : string)
  (amount : pyfloat) (w : World) :
  snd (exchange_from_to remote self convert_from convert_to amount w)
  = after_request w (endpoint w self ("/pair/" ++ convert_from ++ "/" ++ convert_to ++ "/"
                                               ++ format_float amount)).
Proof. unfold after_request. method_world. Qed.

Lemma get_ex_rates_at_specific_date_world (self : nat) (currency : string)
  (year month day : Z) (w : World) :
  snd (get_ex_rates_at_specific_date remote self currency year month day w)
  = after_request w (endpoint w self ("/history/" ++ currency ++ "/" ++ str_int year ++ "/"
                                                  ++ str_int month ++ "/" ++ str_int day)).
Proof. unfold after_request. method_world. Qed.

(** *** Responses other than 200 *)

(** C2. Whatever the method and whatever the body, a response whose status
    code S is not 200 makes the method return the string
    "Request error with status code: S". *)
Theorem request_error_on_non_200 (w : World) (self : nat) (r : Response) :
  status_code r <> 200 ->
  let message := PStr ("Request error with status code: " ++ str_int (status_code r)) in
  (forall currency,
      remote (sent w) (endpoint w self ("/latest/" ++ currency)) = Some r ->
      fst (get_ex_rates remote self currency w) = Return message)
  /\ (forall convert_to convert_from,
      remote (sent w) (endpoint w self ("/pair/" ++ convert_from ++ "/" ++ convert_to))
        = Some r ->
      fst (get_ex_rate_for_currencies remote self convert_to convert_from w)
        = Return message)
  /\ (forall convert_from convert_to amount,
      remote (sent w)
        (endpoint w self ("/pair/" ++ convert_from ++ "/" ++ convert_to ++ "/"
                                   ++ format_float amount)) = Some r ->
      fst (exchange_from_to remote self convert_from convert_to amount w)
        = Return message)
  /\ (forall currency year month day,
      remote (sent w)
        (endpoint w self ("/history/" ++ currency ++ "/" ++ str_int year ++ "/"
                                      ++ str_int month ++ "/" ++ str_int day)) = Some r ->
      fst (get_ex_rates_at_specific_date remote self currency year month day w)
        = Return message).
Proof.
  intros Hstatus message.
  apply Z.eqb_neq in Hstatus.
  repeat split; intros; unfold_method;
    match goal with H : remote _ _ = Some r |- _ => unfold endpoint in H; rewrite H end;
    rewrite Hstatus; reflexivity.
Qed.

(** *** Successful responses *)

(** C3. On a 200 response whose body is a JSON object with the key
    'conversion_rates', the latest-rates method returns the value under that
    key serialised by [json.dumps(..., indent=2)], for every currency code;
    for the rates {"EUR": x} the text is an opening brace, a line with the
    quoted key, a colon, a blank and the number, indented by two blanks, and
    a closing brace on a line of its own. *)
Theorem latest_rates_returns_indented_json
  (w : World) (self : nat) (currency : string) (r : Response)
  (items : list (string * pyobj)) (rates : pyobj) :
  remote (sent w) (endpoint w self ("/latest/" ++ currency)) = Some r ->
  status_code r = 200 ->
  json_body r = Some (PDict items) ->
  lookup "conversion_rates" items = Some rates ->
  fst (get_ex_rates remote self currency w) = Return (PStr (json_dumps rates))
  /\ forall x, json_dumps (PDict [("EUR", PFloat x)])
               = "{" ++ nl ++ "  " ++ json_string "EUR" ++ ": " ++ json_float x ++ nl ++ "}".
Proof.
  intros Hreply Hstatus Hbody Hrates. split.
  - unfold_method. unfold endpoint in Hreply. rewrite Hreply, Hstatus. simpl.
    unfold_body. rewrite Hbody. simpl. rewrite Hrates. reflexivity.
  - intros x. unfold json_dumps. simpl. unfold newline_indent. simpl.
    rewrite !append_assoc. reflexivity.
Qed.

(** C10. On a 200 response whose body is a JSON object without the key the
    method reads, the method raises [KeyError] for that key: no error string
    is returned, and the exception reaches the caller. *)
Theorem missing_field_raises_KeyError
  (w : World) (self : nat) (r : Response) (items : list (string * pyobj)) :
  status_code r = 200 ->
  json_body r = Some (PDict items) ->
  (forall currency,
      lookup "conversion_rates" items = None ->
      remote (sent w) (endpoint w self ("/latest/" ++ currency)) = Some r ->
      fst (get_ex_rates remote self currency w) = Raise (KeyError "conversion_rates"))
  /\ (forall convert_to convert_from,
      lookup "conversion_rate" items = None ->
      remote (sent w) (endpoint w self ("/pair/" ++ convert_from ++ "/" ++ convert_to))
        = Some r ->
      fst (get_ex_rate_for_currencies remote self convert_to convert_from w)
        = Raise (KeyError "conversion_rate"))
  /\ (forall convert_from convert_to amount,
      lookup "conversion_result" items = None ->
      remote (sent w)
        (endpoint w self ("/pair/" ++ convert_from ++ "/" ++ convert_to ++ "/"
                                   ++ format_float amount)) = Some r ->
      fst (exchange_from_to remote self convert_from convert_to amount w)
        = Raise (KeyError "conversion_result"))
  /\ (forall currency year month day,
      lookup "conversion_rates" items = None ->
      remote (sent w)
        (endpoint w self ("/history/" ++ currency ++ "/" ++ str_int year ++ "/"
                                      ++ str_int month ++ "/" ++ str_int day)) = Some r ->
      fst (get_ex_rates_at_specific_date remote self currency year month day w)
        = Raise (KeyError "conversion_rates")).
Proof.
  intros Hstatus Hbody.
  repeat split; intros;
    match goal with
    | Hkey : lookup _ items = None, Hreply : remote _ _ = Some r |- _ =>
        unfold_method; unfold endpoint in Hreply; rewrite Hreply, Hstatus; simpl;
        unfold_body; rewrite Hbody; simpl; rewrite Hkey; reflexivity
    end.
Qed.

(** *** The request of the historical-rates method *)

Lemma nzhead_not_D0 (d d' : Decimal.uint) : Decimal.nzhead d <> Decimal.D0 d'.
Proof.
  induction d; simpl; try discriminate. exact IHd.
Qed.

Lemma to_uint_head (p : positive) :
  Pos.to_uint p <> Decimal.Nil /\ forall d, Pos.to_uint p <> Decimal.D0 d.
Proof.
  split; [apply DecimalPos.Unsigned.to_uint_nonnil|].
  intros d Heq.
  pose proof (DecimalPos.Unsigned.to_of (Pos.to_uint p)) as Hnorm.
  rewrite DecimalPos.Unsigned.of_to in Hnorm. simpl in Hnorm.
  unfold Decimal.unorm in Hnorm.
  destruct (Decimal.nzhead (Pos.to_uint p)) eqn:Hhead;
    try (rewrite Hnorm in Heq; discriminate).
  - apply (DecimalPos.Unsigned.to_uint_nonzero p). exact Hnorm.
  - exact (nzhead_not_D0 _ _ Hhead).
Qed.

Lemma str_int_no_leading_zero (z : Z) :
  0 < z -> exists c rest, str_int z = String c rest /\ c <> "0"%char.
Proof.
  destruct z as [|p|p]; try (intros H; discriminate H). intros _.
  destruct (to_uint_head p) as [Hnil Hzero].
  unfold str_int. simpl.
  destruct (Pos.to_uint p) eqn:Hd; try congruence;
    simpl; eexists _, _; (split; [reflexivity|discriminate]) || (exfalso; eapply Hzero; reflexivity).
Qed.

(** C6. The historical-rates method asks for
    [{url}{token}/history/{currency}/{year}/{month}/{day}], each date
    component written as the decimal text of the integer: a positive
    component never starts with the digit 0, and currency USD with the
    components (2023, 5, 17) gives the path history/USD/2023/5/17. *)
Theorem history_request_path
  (w : World) (self : nat) (currency : string) (year month day : Z) :
  sent (snd (get_ex_rates_at_specific_date remote self currency year month day w))
  = (sent w ++ [endpoint w self ("/history/" ++ currency ++ "/" ++ str_int year ++ "/"
                                             ++ str_int month ++ "/" ++ str_int day)])%list
  /\ (forall z, 0 < z -> exists c rest, str_int z = String c rest /\ c <> "0"%char)
  /\ "/history/" ++ "USD" ++ "/" ++ str_int 2023 ++ "/" ++ str_int 5 ++ "/" ++ str_int 17
     = "/history/USD/2023/5/17".
Proof.
  split; [|split; [exact str_int_no_leading_zero | reflexivity]].
  now rewrite get_ex_rates_at_specific_date_world.
Qed.

(** *** Running the shell *)

Local Notation "x <- m ;; k" := (bind m (fun x => k))
  (at level 61, m at next level, right associativity).

Local Opaque menu_prompt currency_prompt rate_prompt relative_prompt amount_prompt
  date_prompt.

Lemma run_init (A : Type) (tok : string) (k : nat -> M A) (w : World) :
  (self <- CurrencyExchange_init API_URL tok ;; k self) w
  = k (allocated w)
      (mkWorld (fun r => if Nat.eqb r (allocated w) then mkCurrencyExchange tok API_URL
                         else objects w r)
               (S (allocated w)) (stdin w) (console w) (sent w)).
Proof. reflexivity. Qed.

Lemma run_input (A : Type) (prompt line : string) (rest : list string)
  (k : string -> M A) (w : World) :
  stdin w = line :: rest ->
  (x <- input prompt ;; k x) w
  = k line (mkWorld (objects w) (allocated w) rest
                    (console w ++ [Prompted prompt])%list (sent w)).
Proof.
  intros Hin. unfold bind, input. rewrite Hin. reflexivity.
Qed.

Lemma run_int_of (A : Type) (s : string) (z : Z) (k : Z -> M A) (w : World) :
  py_int s = Some z -> (x <- int_of s ;; k x) w = k z w.
Proof.
  intros Hint. unfold bind, int_of. rewrite Hint. reflexivity.
Qed.

Lemma run_int_of_fails (A : Type) (s : string) (k : Z -> M A) (w : World) :
  py_int s = None -> (x <- int_of s ;; k x) w = (Raise ValueError, w).
Proof.
  intros Hint. unfold bind, int_of. rewrite Hint. reflexivity.
Qed.

Lemma run_float_of (A : Type) (s : string) (x : pyfloat) (k : pyfloat -> M A) (w : World) :
  py_float s = Some x -> (y <- float_of s ;; k y) w = k x w.
Proof.
  intros Hfloat. unfold bind, float_of. rewrite Hfloat. reflexivity.
Qed.

Lemma run_float_of_fails (A : Type) (s : string) (k : pyfloat -> M A) (w : World) :
  py_float s = None -> (y <- float_of s ;; k y) w = (Raise ValueError, w).
Proof.
  intros Hfloat. unfold bind, float_of. rewrite Hfloat. reflexivity.
Qed.

Lemma printed_app (xs ys : list Event) :
  printed (xs ++ ys) = (printed xs ++ printed ys)%list.
Proof. apply flat_map_app. Qed.

(** The shell up to the branch on the selector. *)
Lemma main_selects (w : World) (answer : string) (rest : list string) (n : Z) :
  stdin w = answer :: rest ->
  py_int answer = Some n ->
  exists w1,
    objects w1 (allocated w) = mkCurrencyExchange TOKEN_KEY API_URL
    /\ stdin w1 = rest
    /\ console w1 = (console w ++ [Prompted menu_prompt])%list
    /\ sent w1 = sent w
    /\ forall k : nat -> Z -> M unit,
        (exchanger <- CurrencyExchange_init API_URL TOKEN_KEY ;;
         line <- input menu_prompt ;;
         user_input <- int_of line ;;
         k exchanger user_input) w
        = k (allocated w) n w1.
Proof.
  intros Hin Hint.
  exists (mkWorld (fun r => if Nat.eqb r (allocated w)
                            then mkCurrencyExchange TOKEN_KEY API_URL else objects w r)
                  (S (allocated w)) rest (console w ++ [Prompted menu_prompt])%list (sent w)).
  cbn [objects stdin console sent]. rewrite Nat.eqb_refl.
  repeat split.
  intros k. rewrite run_init. rewrite (run_input _ _ answer rest) by exact Hin.
  now rewrite (run_int_of _ _ n) by exact Hint.
Qed.

(** C4. When the selector read from the console is an integer other than 1,
    2, 3 and 4, the shell prints exactly 'Invalid input', sends no request,
    and ends normally. *)
Theorem invalid_selector_prints_invalid_input
  (w : World) (answer : string) (rest : list string) (n : Z) :
  stdin w = answer :: rest ->
  py_int answer = Some n ->
  n <> 1 -> n <> 2 -> n <> 3 -> n <> 4 ->
  let run := main API_URL TOKEN_KEY remote w in
  fst run = Return tt
  /\ console (snd run)
     = (console w ++ [Prompted menu_prompt; Printed (PStr "Invalid input")])%list
  /\ printed (console (snd run)) = (printed (console w) ++ [PStr "Invalid input"])%list
  /\ sent (snd run) = sent w
  /\ stdin (snd run) = rest.
Proof.
  intros Hin Hint H1 H2 H3 H4 run.
  destruct (main_selects w answer rest n Hin Hint) as (w1 & _ & Hstdin & Hconsole & Hsent & Hrun).
  assert (Hmain : run = print (PStr "Invalid input") w1).
  { unfold run, main. rewrite Hrun.
    apply Z.eqb_neq in H1, H2, H3, H4. now rewrite H1, H2, H3, H4. }
  rewrite Hmain. unfold print. cbn [fst snd console sent stdin].
  rewrite Hconsole, Hsent, Hstdin, <- List.app_assoc.
  repeat split; try reflexivity.
  now rewrite !printed_app.
Qed.

(** *** Printing what a method returned *)

(** Printing the result of a method adds no request. *)
Lemma sent_then_print (m : M pyobj) (w : World) :
  sent (snd ((out <- m ;; print out) w)) = sent (snd (m w)).
Proof.
  unfold bind. destruct (m w) as [[v|e] w1]; reflexivity.
Qed.

Lemma then_print_returns (m : M pyobj) (w : World) (v : pyobj) :
  fst (m w) = Return v ->
  fst ((out <- m ;; print out) w) = Return tt
  /\ console (snd ((out <- m ;; print out) w)) = (console (snd (m w)) ++ [Printed v])%list.
Proof.
  unfold bind. destruct (m w) as [[v'|e] w1]; simpl; intros Hv; [|discriminate].
  injection Hv as ->. split; reflexivity.
Qed.

(** *** The pair-rate option of the shell *)

(** C1, as the code has it. With option 2, the currency typed at the first
    prompt and the one typed at the second reach the pair-rate method in the
    order (convert_to, convert_from), so the request is
    [{API_URL}{TOKEN_KEY}/pair/{second}/{first}]; for two different codes of
    the same length this is not [.../pair/{first}/{second}]. *)
Theorem pair_rate_request_is_reversed
  (w : World) (answer first second : string) (rest : list string) :
  stdin w = answer :: first :: second :: rest ->
  py_int answer = Some 2 ->
  let run := main API_URL TOKEN_KEY remote w in
  sent (snd run)
  = (sent w ++ [(API_URL ++ TOKEN_KEY ++ "/pair/" ++ second ++ "/" ++ first)%string])%list
  /\ (String.length first = String.length second ->
      first <> second ->
      sent (snd run)
      <> (sent w ++ [(API_URL ++ TOKEN_KEY ++ "/pair/" ++ first ++ "/" ++ second)%string])%list).
Proof.
  intros Hin Hint run.
  destruct (main_selects w answer _ 2 Hin Hint) as (w1 & Hobj & Hstdin & _ & Hsent & Hrun).
  assert (Hmain : sent (snd run)
          = (sent w ++ [(API_URL ++ TOKEN_KEY ++ "/pair/" ++ second ++ "/" ++ first)%string])%list).
  { unfold run, main. rewrite Hrun. cbn [Z.eqb Pos.eqb].
    rewrite (run_input _ _ first (second :: rest)) by exact Hstdin.
    rewrite (run_input _ _ second rest) by reflexivity.
    rewrite sent_then_print, get_ex_rate_for_currencies_world.
    unfold after_request, endpoint. cbn [sent objects]. now rewrite Hobj, Hsent. }
  split; [exact Hmain|].
  intros Hlen Hneq Heq. rewrite Hmain in Heq.
  apply app_inv_head in Heq. injection Heq as Heq.
  do 2 apply append_cancel_l in Heq. simpl in Heq. injection Heq as Heq.
  apply Hneq. symmetry. now apply append_same_length in Heq.
Qed.

(** *** The conversion option of the shell *)

(** C5. With option 3, source currency A, target currency B and an amount
    that [float] reads as x, the shell makes the conversion method send
    exactly [{API_URL}{TOKEN_KEY}/pair/{A}/{B}/{x}]; when the answer has
    status 200 and a JSON object with the key 'conversion_result', the method
    returns the value under that key as it is, and the shell prints it. *)
Theorem conversion_request_and_result
  (w : World) (answer source target amount : string) (rest : list string) (x : pyfloat) :
  stdin w = answer :: source :: target :: amount :: rest ->
  py_int answer = Some 3 ->
  py_float amount = Some x ->
  let run := main API_URL TOKEN_KEY remote w in
  let path := "/pair/" ++ source ++ "/" ++ target ++ "/" ++ format_float x in
  sent (snd run) = (sent w ++ [(API_URL ++ TOKEN_KEY ++ path)%string])%list
  /\ (forall r items v,
        remote (sent w) (API_URL ++ TOKEN_KEY ++ path) = Some r ->
        status_code r = 200 ->
        json_body r = Some (PDict items) ->
        lookup "conversion_result" items = Some v ->
        fst run = Return tt
        /\ printed (console (snd run)) = (printed (console w) ++ [v])%list)
  /\ (forall self w0 r items v,
        remote (sent w0) (endpoint w0 self path) = Some r ->
        status_code r = 200 ->
        json_body r = Some (PDict items) ->
        lookup "conversion_result" items = Some v ->
        fst (exchange_from_to remote self source target x w0) = Return v).
Proof.
  intros Hin Hint Hfloat run path.
  assert (Hmethod : forall self w0 r items v,
             remote (sent w0) (endpoint w0 self path) = Some r ->
             status_code r = 200 ->
             json_body r = Some (PDict items) ->
             lookup "conversion_result" items = Some v ->
             fst (exchange_from_to remote self source target x w0) = Return v).
  { intros self w0 r items v Hreply Hstatus Hbody Hkey.
    unfold_method. unfold endpoint, path in Hreply. rewrite Hreply, Hstatus. simpl.
    unfold_body. rewrite Hbody. simpl. now rewrite Hkey. }
  destruct (main_selects w answer _ 3 Hin Hint)
    as (w1 & Hobj & Hstdin & Hconsole & Hsent & Hrun).
  pose (w2 := mkWorld (objects w1) (allocated w1) rest
                (((console w1 ++ [Prompted rate_prompt]) ++ [Prompted relative_prompt])
                   ++ [Prompted amount_prompt])%list (sent w1)).
  assert (Hmain : run = (out <- exchange_from_to remote (allocated w) source target x ;;
                         print out) w2).
  { unfold run, main. rewrite Hrun. cbn [Z.eqb Pos.eqb].
    rewrite (run_input _ _ source (target :: amount :: rest)) by exact Hstdin.
    rewrite (run_input _ _ target (amount :: rest)) by reflexivity.
    rewrite (run_input _ _ amount rest) by reflexivity.
    now rewrite (run_float_of _ _ x) by exact Hfloat. }
  assert (Hurl : endpoint w2 (allocated w) path = API_URL ++ TOKEN_KEY ++ path).
  { unfold endpoint, w2. cbn [objects]. now rewrite Hobj. }
  split; [|split; [|exact Hmethod]].
  - rewrite Hmain, sent_then_print, exchange_from_to_world.
    fold path. rewrite Hurl. unfold after_request, w2. cbn [sent]. now rewrite Hsent.
  - intros r items v Hreply Hstatus Hbody Hkey.
    assert (Hv : fst (exchange_from_to remote (allocated w) source target x w2) = Return v).
    { apply (Hmethod _ _ r items); try assumption.
      rewrite Hurl. unfold w2. cbn [sent]. now rewrite Hsent. }
    rewrite Hmain. destruct (then_print_returns _ _ _ Hv) as [Hout Hcons].
    split; [exact Hout|].
    rewrite Hcons, exchange_from_to_world. unfold after_request, w2. cbn [console].
    rewrite Hconsole, !printed_app. simpl. now rewrite !List.app_nil_r.
Qed.

(** *** Input that does not parse *)

(** C9. With option 4, a date that does not split at its hyphens into three
    parts that [int] reads, and with option 3, an amount that [float]
    rejects, end the shell with [ValueError]: nothing catches it, no request
    is sent and nothing is printed. *)
Theorem parse_failures_are_not_caught (w : World) (answer : string) :
  let run := main API_URL TOKEN_KEY remote w in
  (forall currency date rest,
      stdin w = answer :: currency :: date :: rest ->
      py_int answer = Some 4 ->
      date_well_formed date = false ->
      fst run = Raise ValueError
      /\ sent (snd run) = sent w
      /\ printed (console (snd run)) = printed (console w))
  /\ (forall source target amount rest,
      stdin w = answer :: source :: target :: amount :: rest ->
      py_int answer = Some 3 ->
      py_float amount = None ->
      fst run = Raise ValueError
      /\ sent (snd run) = sent w
      /\ printed (console (snd run)) = printed (console w)).
Proof.
  intros run. split.
  - intros currency date rest Hin Hint Hdate.
    destruct (main_selects w answer _ 4 Hin Hint)
      as (w1 & _ & Hstdin & Hconsole & Hsent & Hrun).
    pose (w2 := mkWorld (objects w1) (allocated w1) rest
                  ((console w1 ++ [Prompted rate_prompt]) ++ [Prompted date_prompt])%list
                  (sent w1)).
    assert (Hmain : run = (Raise ValueError, w2)).
    { unfold run, main. rewrite Hrun. cbn [Z.eqb Pos.eqb].
      rewrite (run_input _ _ currency (date :: rest)) by exact Hstdin.
      rewrite (run_input _ _ date rest) by reflexivity.
      fold w2. unfold date_well_formed in Hdate.
      destruct (split hyphen date) as [|year [|month [|day [|extra parts]]]];
        try reflexivity.
      destruct (py_int year) as [y|] eqn:Hy;
        [|now rewrite run_int_of_fails].
      rewrite (run_int_of _ _ y) by exact Hy.
      destruct (py_int month) as [m|] eqn:Hm;
        [|now rewrite run_int_of_fails].
      rewrite (run_int_of _ _ m) by exact Hm.
      destruct (py_int day) as [d|] eqn:Hd;
        [discriminate Hdate|now rewrite run_int_of_fails]. }
    rewrite Hmain. unfold w2. cbn [fst snd sent console].
    rewrite Hsent, Hconsole, !printed_app. simpl. now rewrite !List.app_nil_r.
  - intros source target amount rest Hin Hint Hfloat.
    destruct (main_selects w answer _ 3 Hin Hint)
      as (w1 & _ & Hstdin & Hconsole & Hsent & Hrun).
    pose (w2 := mkWorld (objects w1) (allocated w1) rest
                  (((console w1 ++ [Prompted rate_prompt]) ++ [Prompted relative_prompt])
                     ++ [Prompted amount_prompt])%list (sent w1)).
    assert (Hmain : run = (Raise ValueError, w2)).
    { unfold run, main. rewrite Hrun. cbn [Z.eqb Pos.eqb].
      rewrite (run_input _ _ source (target :: amount :: rest)) by exact Hstdin.
      rewrite (run_input _ _ target (amount :: rest)) by reflexivity.
      rewrite (run_input _ _ amount rest) by reflexivity.
      now rewrite run_float_of_fails by exact Hfloat. }
    rewrite Hmain. unfold w2. cbn [fst snd sent console].
    rewrite Hsent, Hconsole, !printed_app. simpl. now rewrite !List.app_nil_r.
Qed.

(** *** The client is never written *)

Lemma invoke_world (c : Call) (w : World) :
  exists u, snd (invoke remote c w) = after_request w u.
Proof.
  destruct c; cbn [invoke]; eexists.
  - apply get_ex_rates_world.
  - apply get_ex_rate_for_currencies_world.
  - apply exchange_from_to_world.
  - apply get_ex_rates_at_specific_date_world.
Qed.

Lemma invoke_all_world (calls : list Call) (w : World) :
  exists requests,
    snd (invoke_all remote calls w)
    = mkWorld (objects w) (allocated w) (stdin w) (console w) (sent w ++ requests)%list
    /\ List.length requests = List.length calls.
Proof.
  revert w. induction calls as [|c calls IH]; intros w.
  - exists []. simpl. rewrite List.app_nil_r. now destruct w.
  - destruct (invoke_world c w) as [u Hu].
    simpl. destruct (invoke remote c w) as [o w1]. simpl in Hu. subst w1.
    destruct (IH (after_request w u)) as (requests & Hw & Hlen).
    destruct (invoke_all remote calls (after_request w u)) as [os w2].
    simpl in Hw |- *. exists (u :: requests).
    split; [|simpl; now rewrite Hlen].
    rewrite Hw. now rewrite <- List.app_assoc.
Qed.

(** C7. Whatever the sequence of method calls, on whatever clients, the store
    of client objects is afterwards what it was before: the calls only add
    their requests, one each, to the list of requests sent. In particular a
    client built by the constructor from a token still holds that token and
    the base URL after the calls. *)
Theorem client_state_is_never_written (calls : list Call) (w : World) (tok : string) :
  (exists requests,
      snd (invoke_all remote calls w)
      = mkWorld (objects w) (allocated w) (stdin w) (console w) (sent w ++ requests)%list
      /\ List.length requests = List.length calls)
  /\ objects (snd (invoke_all remote calls w)) = objects w
  /\ (let built := CurrencyExchange_init API_URL tok w in
      let after := snd (invoke_all remote calls (snd built)) in
      objects after = objects (snd built)
      /\ token (objects after (allocated w)) = tok
      /\ url (objects after (allocated w)) = API_URL).
Proof.
  split; [apply invoke_all_world|]. split.
  - destruct (invoke_all_world calls w) as (requests & Hw & _). now rewrite Hw.
  - intros built after.
    destruct (invoke_all_world calls (snd built)) as (requests & Hw & _).
    unfold after. rewrite Hw. unfold built, CurrencyExchange_init.
    cbn [snd objects]. rewrite Nat.eqb_refl. repeat split.
Qed.

(** *** Asking twice *)

(** C8. A method called a second time with the same arguments, in the world
    the first call left, returns or raises exactly what the first call did,
    provided the service answers the repeated request as it answered the
    first one. *)
Theorem repeated_call_same_output (c : Call) (w : World) :
  let first := invoke remote c w in
  (forall u,
      sent (snd first) = (sent w ++ [u])%list ->
      remote (sent (snd first)) u = remote (sent w) u) ->
  fst (invoke remote c (snd first)) = fst first.
Proof.
  intros first Hsame. unfold first in *. clear first.
  destruct c; cbn [invoke] in *.
  - rewrite get_ex_rates_world in *.
    specialize (Hsame _ eq_refl). same_reply Hsame.
  - rewrite get_ex_rate_for_currencies_world in *.
    specialize (Hsame _ eq_refl). same_reply Hsame.
  - rewrite exchange_from_to_world in *.
    specialize (Hsame _ eq_refl). same_reply Hsame.
  - rewrite get_ex_rates_at_specific_date_world in *.
    specialize (Hsame _ eq_refl). same_reply Hsame.
Qed.

(** ** Further properties of the methods *)

(** *** What a method needs to succeed, and how it fails otherwise *)

(** X1. The pair-rate method asks for
    [{url}{token}/pair/{convert_from}/{convert_to}], the source currency
    first, and on a 200 answer whose body is a JSON object with the key
    'conversion_rate' it returns the value under that key as it is, whatever
    kind of value that is. *)
Theorem pair_rate_request_and_result
  (w : World) (self : nat) (convert_to convert_from : string) (r : Response)
  (items : list (string * pyobj)) (v : pyobj) :
  let request := endpoint w self ("/pair/" ++ convert_from ++ "/" ++ convert_to) in
  remote (sent w) request = Some r ->
  status_code r = 200 ->
  json_body r = Some (PDict items) ->
  lookup "conversion_rate" items = Some v ->
  get_ex_rate_for_currencies remote self convert_to convert_from w
  = (Return v, after_request w request).
Proof.
  intros request Hreply Hstatus Hbody Hkey.
  unfold_method. unfold request, endpoint in Hreply. rewrite Hreply, Hstatus.
  unfold_body. rewrite Hbody. cbn [getitem]. now rewrite Hkey.
Qed.

(** X2. On a 200 answer whose body is a JSON object with the key
    'conversion_rates', the historical-rates method returns the value under
    that key serialised by [json.dumps(..., indent=2)], as the latest-rates
    method does for the same body. *)
Theorem historical_rates_returns_indented_json
  (w : World) (self : nat) (currency : string) (year month day : Z) (r : Response)
  (items : list (string * pyobj)) (rates : pyobj) :
  remote (sent w)
    (endpoint w self ("/history/" ++ currency ++ "/" ++ str_int year ++ "/"
                                  ++ str_int month ++ "/" ++ str_int day)) = Some r ->
  status_code r = 200 ->
  json_body r = Some (PDict items) ->
  lookup "conversion_rates" items = Some rates ->
  fst (get_ex_rates_at_specific_date remote self currency year month day w)
  = Return (PStr (json_dumps rates))
  /\ forall w0 self0 currency0,
      remote (sent w0) (endpoint w0 self0 ("/latest/" ++ currency0)) = Some r ->
      fst (get_ex_rates remote self0 currency0 w0)
      = fst (get_ex_rates_at_specific_date remote self currency year month day w).
Proof.
  intros Hreply Hstatus Hbody Hrates.
  assert (Hhistory : fst (get_ex_rates_at_specific_date remote self currency year month day w)
                     = Return (PStr (json_dumps rates))).
  { unfold_method. unfold endpoint in Hreply. rewrite Hreply, Hstatus.
    unfold_body. rewrite Hbody. cbn [getitem]. now rewrite Hrates. }
  split; [exact Hhistory|].
  intros w0 self0 currency0 Hlatest. rewrite Hhistory.
  unfold_method. unfold endpoint in Hlatest. rewrite Hlatest, Hstatus.
  unfold_body. rewrite Hbody. cbn [getitem]. now rewrite Hrates.
Qed.

(** X3. The value a method returns does not tell success from failure: for
    every answer with a status other than 200 there is an answer with status
    200 for which the pair-rate method, and likewise the conversion method,
    returns the very same value, the error string. *)
Theorem returned_value_does_not_tell_success
  (w : World) (self : nat) (first second : string) (amount : pyfloat) (r : Response) :
  status_code r <> 200 ->
  exists r200,
    status_code r200 = 200
    /\ forall served : list string -> string -> option Response,
        (forall u, served (sent w) u = Some r200) ->
        (forall u, remote (sent w) u = Some r) ->
        fst (get_ex_rate_for_currencies served self first second w)
        = fst (get_ex_rate_for_currencies remote self first second w)
        /\ fst (exchange_from_to served self first second amount w)
           = fst (exchange_from_to remote self first second amount w).
Proof.
  intros Hstatus. apply Z.eqb_neq in Hstatus.
  exists (mkResponse 200 (Some (PDict [("conversion_rate", request_error r);
                                       ("conversion_result", request_error r)]))).
  split; [reflexivity|].
  intros served Hserved Hremote.
  split; unfold_method; rewrite Hserved, Hremote, Hstatus; reflexivity.
Qed.

(** ** Further properties of the shell *)

Lemma run_input_eof (A : Type) (prompt : string) (k : string -> M A) (w : World) :
  stdin w = [] ->
  (x <- input prompt ;; k x) w
  = (Raise EOFError,
     mkWorld (objects w) (allocated w) [] (console w ++ [Prompted prompt])%list (sent w)).
Proof.
  intros Hin. unfold bind, input. rewrite Hin. reflexivity.
Qed.

Lemma then_print (m : M pyobj) (w : World) :
  (out <- m ;; print out) w
  = match m w with
    | (Return v, w1) =>
        (Return tt,
         mkWorld (objects w1) (allocated w1) (stdin w1) (console w1 ++ [Printed v])%list
                 (sent w1))
    | (Raise e, w1) => (Raise e, w1)
    end.
Proof.
  unfold bind, print. destruct (m w) as [[v|e] w1]; reflexivity.
Qed.

Ltac traffic :=
  cbn [sent console objects stdin fst snd];
  rewrite ?printed_app; cbn [printed flat_map app];
  rewrite ?List.app_nil_r, ?Nat.eqb_refl; try reflexivity.

(** The shell is its prompts, which send and print nothing, followed by one
    of three things: one method call on the client it built and the printing
    of the result; the printing of 'Invalid input'; an exception raised by
    the reading of the answers. *)
Lemma main_cases (w : World) :
  (answers_complete (stdin w) = true
   /\ exists c w2,
       main API_URL TOKEN_KEY remote w = (out <- invoke remote c ;; print out) w2
       /\ sent w2 = sent w
       /\ printed (console w2) = printed (console w)
       /\ receiver c = allocated w
       /\ objects w2 (allocated w) = mkCurrencyExchange TOKEN_KEY API_URL)
  \/ (answers_complete (stdin w) = false
      /\ exists w2,
          sent w2 = sent w
          /\ printed (console w2) = printed (console w)
          /\ (main API_URL TOKEN_KEY remote w = print (PStr "Invalid input") w2
              \/ main API_URL TOKEN_KEY remote w = (Raise ValueError, w2)
              \/ main API_URL TOKEN_KEY remote w = (Raise EOFError, w2))).
Proof.
  unfold main. rewrite run_init.
  destruct (stdin w) as [|answer rest] eqn:Hin.
  { right. split; [reflexivity|]. eexists. split; [|split; [|right; right]].
    3: { now rewrite run_input_eof by reflexivity. }
    all: traffic. }
  rewrite (run_input _ _ answer rest) by reflexivity.
  cbn [answers_complete].
  destruct (py_int answer) as [n|] eqn:Hn.
  2: { right. split; [reflexivity|]. eexists. split; [|split; [|right; left]].
       3: { now rewrite run_int_of_fails by exact Hn. }
       all: traffic. }
  rewrite (run_int_of _ _ n) by exact Hn.
  destruct (n =? 1)%Z.
  { destruct rest as [|currency rest].
    - right. split; [reflexivity|]. eexists. split; [|split; [|right; right]].
      3: { now rewrite run_input_eof by reflexivity. }
      all: traffic.
    - left. split; [reflexivity|].
      exists (Call_get_ex_rates (allocated w) currency). eexists.
      split; [|split; [|split; [|split]]].
      1: { now rewrite (run_input _ _ currency rest) by reflexivity. }
      all: traffic. }
  destruct (n =? 2)%Z.
  { destruct rest as [|first [|second rest]].
    - right. split; [reflexivity|]. eexists. split; [|split; [|right; right]].
      3: { now rewrite run_input_eof by reflexivity. }
      all: traffic.
    - right. split; [reflexivity|]. eexists. split; [|split; [|right; right]].
      3: { rewrite (run_input _ _ first []) by reflexivity.
           now rewrite run_input_eof by reflexivity. }
      all: traffic.
    - left. split; [reflexivity|].
      exists (Call_get_ex_rate_for_currencies (allocated w) first second). eexists.
      split; [|split; [|split; [|split]]].
      1: { rewrite (run_input _ _ first (second :: rest)) by reflexivity.
           now rewrite (run_input _ _ second rest) by reflexivity. }
      all: traffic. }
  destruct (n =? 3)%Z.
  { destruct rest as [|source [|target [|amount rest]]].
    - right. split; [reflexivity|]. eexists. split; [|split; [|right; right]].
      3: { now rewrite run_input_eof by reflexivity. }
      all: traffic.
    - right. split; [reflexivity|]. eexists. split; [|split; [|right; right]].
      3: { rewrite (run_input _ _ source []) by reflexivity.
           now rewrite run_input_eof by reflexivity. }
      all: traffic.
    - right. split; [reflexivity|]. eexists. split; [|split; [|right; right]].
      3: { rewrite (run_input _ _ source [target]) by reflexivity.
           rewrite (run_input _ _ target []) by reflexivity.
           now rewrite run_input_eof by reflexivity. }
      all: traffic.
    - rewrite (run_input _ _ source (target :: amount :: rest)) by reflexivity.
      rewrite (run_input _ _ target (amount :: rest)) by reflexivity.
      rewrite (run_input _ _ amount rest) by reflexivity.
      destruct (py_float amount) as [x|] eqn:Hx.
      + left. split; [reflexivity|].
        exists (Call_exchange_from_to (allocated w) source target x). eexists.
        split; [|split; [|split; [|split]]].
        1: { now rewrite (run_float_of _ _ x) by exact Hx. }
        all: traffic.
      + right. split; [reflexivity|]. eexists. split; [|split; [|right; left]].
        3: { now rewrite run_float_of_fails by exact Hx. }
        all: traffic. }
  destruct (n =? 4)%Z.
  { destruct rest as [|currency [|date rest]].
    - right. split; [reflexivity|]. eexists. split; [|split; [|right; right]].
      3: { now rewrite run_input_eof by reflexivity. }
      all: traffic.
    - right. split; [reflexivity|]. eexists. split; [|split; [|right; right]].
      3: { rewrite (run_input _ _ currency []) by reflexivity.
           now rewrite run_input_eof by reflexivity. }
      all: traffic.
    - rewrite (run_input _ _ currency (date :: rest)) by reflexivity.
      rewrite (run_input _ _ date rest) by reflexivity.
      unfold date_well_formed.
      destruct (split hyphen date) as [|year [|month [|day [|extra parts]]]];
        try (right; split; [reflexivity|]; eexists; split; [|split; [|right; left]];
             [| |reflexivity]; traffic).
      destruct (py_int year) as [y|] eqn:Hy.
      2: { right. split; [reflexivity|]. eexists. split; [|split; [|right; left]].
           3: { now rewrite run_int_of_fails by exact Hy. }
           all: traffic. }
      rewrite (run_int_of _ _ y) by exact Hy.
      destruct (py_int month) as [m|] eqn:Hm.
      2: { right. split; [reflexivity|]. eexists. split; [|split; [|right; left]].
           3: { now rewrite run_int_of_fails by exact Hm. }
           all: traffic. }
      rewrite (run_int_of _ _ m) by exact Hm.
      destruct (py_int day) as [d|] eqn:Hd.
      2: { right. split; [reflexivity|]. eexists. split; [|split; [|right; left]].
           3: { now rewrite run_int_of_fails by exact Hd. }
           all: traffic. }
      rewrite (run_int_of _ _ d) by exact Hd.
      left. split; [reflexivity|].
      exists (Call_get_ex_rates_at_specific_date (allocated w) currency y m d). eexists.
      split; [|split; [|split; [|split]]].
      1: { reflexivity. }
      all: traffic. }
  right. split; [reflexivity|]. eexists. split; [|split; [|left]].
  3: { reflexivity. }
  all: traffic.
Qed.

Lemma invoke_request (c : Call) (w : World) :
  exists path, snd (invoke remote c w) = after_request w (endpoint w (receiver c) path).
Proof.
  destruct c; cbn [invoke receiver]; eexists.
  - apply get_ex_rates_world.
  - apply get_ex_rate_for_currencies_world.
  - apply exchange_from_to_world.
  - apply get_ex_rates_at_specific_date_world.
Qed.

(** With complete answers the shell ends as the one method call it makes
    ends, and prints what that call returns. *)
Lemma shell_after_method (w : World) :
  answers_complete (stdin w) = true ->
  exists c w2,
    sent w2 = sent w
    /\ fst (main API_URL TOKEN_KEY remote w)
       = match fst (invoke remote c w2) with
         | Return _ => Return tt
         | Raise e => Raise e
         end
    /\ printed (console (snd (main API_URL TOKEN_KEY remote w)))
       = (printed (console w)
          ++ match fst (invoke remote c w2) with
             | Return v => [v]
             | Raise _ => []
             end)%list.
Proof.
  intros Hcomplete.
  destruct (main_cases w)
    as [(_ & c & w2 & Hmain & Hsent & Hprinted & _) | (Hnot & _)];
    [|congruence].
  exists c, w2. split; [exact Hsent|].
  rewrite Hmain, then_print.
  destruct (invoke_world c w2) as [u Hworld].
  destruct (invoke remote c w2) as [[v|e] w3]; cbn [fst snd] in *; subst w3;
    unfold after_request; traffic; rewrite Hprinted; traffic; split; reflexivity.
Qed.

Lemma invoke_rejected (c : Call) (w : World) (r : Response) :
  (forall u, remote (sent w) u = Some r) ->
  status_code r <> 200 ->
  fst (invoke remote c w) = Return (request_error r).
Proof.
  intros Hreply Hstatus. apply Z.eqb_neq in Hstatus.
  destruct c; cbn [invoke]; unfold_method; now rewrite Hreply, Hstatus.
Qed.

Lemma invoke_unreachable (c : Call) (w : World) :
  (forall u, remote (sent w) u = None) ->
  fst (invoke remote c w) = Raise ConnectionError.
Proof.
  intros Hdown. destruct c; cbn [invoke]; unfold_method; now rewrite Hdown.
Qed.

Lemma invoke_not_json (c : Call) (w : World) (r : Response) :
  (forall u, remote (sent w) u = Some r) ->
  status_code r = 200 ->
  json_body r = None ->
  fst (invoke remote c w) = Raise JSONDecodeError.
Proof.
  intros Hreply Hstatus Hbody.
  destruct c; cbn [invoke]; unfold_method;
    rewrite Hreply, Hstatus; unfold_body; now rewrite Hbody.
Qed.

Lemma invoke_not_object (c : Call) (w : World) (r : Response) (body : pyobj) :
  (forall u, remote (sent w) u = Some r) ->
  status_code r = 200 ->
  json_body r = Some body ->
  is_dict body = false ->
  fst (invoke remote c w) = Raise TypeError.
Proof.
  intros Hreply Hstatus Hbody Hkind.
  destruct c; cbn [invoke]; unfold_method;
    rewrite Hreply, Hstatus; unfold_body; rewrite Hbody;
    destruct body; try reflexivity; discriminate Hkind.
Qed.

(** *** What one run of the shell sends and prints *)

(** X4. Whatever waits on the console and whatever the service does, one run
    of the shell sends one request when the answers are complete and none
    otherwise, to a URL that starts with [{API_URL}{TOKEN_KEY}]; it prints at
    most one value, and it ends normally exactly when it has printed one. *)
Theorem shell_traffic (w : World) :
  let run := main API_URL TOKEN_KEY remote w in
  exists requests values,
    sent (snd run) = (sent w ++ requests)%list
    /\ printed (console (snd run)) = (printed (console w) ++ values)%list
    /\ List.length requests = (if answers_complete (stdin w) then 1 else 0)%nat
    /\ (List.length values <= 1)%nat
    /\ (fst run = Return tt <-> List.length values = 1%nat)
    /\ (forall u, In u requests -> exists path, u = API_URL ++ TOKEN_KEY ++ path).
Proof.
  intros run. unfold run. clear run.
  destruct (main_cases w)
    as [(Hcomplete & c & w2 & Hmain & Hsent & Hprinted & Hself & Hclient)
       | (Hnot & w2 & Hsent & Hprinted & Hends)].
  - rewrite Hmain, then_print, Hcomplete.
    destruct (invoke_request c w2) as [path Hworld].
    assert (Hurl : forall u, In u [endpoint w2 (receiver c) path] ->
                             exists p, u = API_URL ++ TOKEN_KEY ++ p).
    { intros u [<-|[]]. exists path. unfold endpoint. now rewrite Hself, Hclient. }
    destruct (invoke remote c w2) as [[v|e] w3]; cbn [fst snd] in *; subst w3;
      exists [endpoint w2 (receiver c) path];
      [exists [v] | exists []];
      unfold after_request; traffic; rewrite Hsent, Hprinted; traffic;
      repeat split; auto; discriminate.
  - rewrite Hnot.
    destruct Hends as [Hmain|[Hmain|Hmain]]; rewrite Hmain; exists [];
      [exists [PStr "Invalid input"] | exists [] | exists []];
      unfold print; traffic; rewrite Hsent, Hprinted; traffic;
      repeat split; auto; try discriminate; intros u [].
Qed.

(** X5. When the service answers with a status other than 200 and the
    answers on the console are complete, the shell, whichever option was
    chosen, prints the error string for that status and ends normally. *)
Theorem rejection_is_printed (w : World) (r : Response) :
  (forall u, remote (sent w) u = Some r) ->
  status_code r <> 200 ->
  answers_complete (stdin w) = true ->
  let run := main API_URL TOKEN_KEY remote w in
  fst run = Return tt
  /\ printed (console (snd run))
     = (printed (console w)
        ++ [PStr ("Request error with status code: " ++ str_int (status_code r))])%list.
Proof.
  intros Hreply Hstatus Hcomplete run.
  destruct (shell_after_method w Hcomplete) as (c & w2 & Hsent & Hout & Hprinted).
  assert (Hcall : fst (invoke remote c w2) = Return (request_error r)).
  { apply invoke_rejected; [|exact Hstatus]. now rewrite Hsent. }
  unfold run. now rewrite Hout, Hprinted, Hcall.
Qed.

(** X6. When the transport fails, each of the four methods raises the
    transport's exception, and the shell, when the answers are complete, ends
    with that exception and prints nothing: nothing catches it or turns it
    into an error string. *)
Theorem transport_failure_propagates (w : World) :
  (forall u, remote (sent w) u = None) ->
  let run := main API_URL TOKEN_KEY remote w in
  (forall c, fst (invoke remote c w) = Raise ConnectionError)
  /\ (answers_complete (stdin w) = true ->
      fst run = Raise ConnectionError
      /\ printed (console (snd run)) = printed (console w)).
Proof.
  intros Hdown run. split.
  - intros c. now apply invoke_unreachable.
  - intros Hcomplete.
    destruct (shell_after_method w Hcomplete) as (c & w2 & Hsent & Hout & Hprinted).
    assert (Hcall : fst (invoke remote c w2) = Raise ConnectionError).
    { apply invoke_unreachable. now rewrite Hsent. }
    unfold run. rewrite Hout, Hprinted, Hcall. now rewrite List.app_nil_r.
Qed.

(** X7. A 200 answer whose body is not JSON makes each of the four methods
    raise the decoder's exception, and one whose body is JSON but not an
    object (a list, a string, a number, a boolean, null) makes each of them
    raise [TypeError]; the shell, when the answers are complete, ends with the
    same exception and prints nothing. No error string is produced. *)
Theorem undecodable_body_raises (w : World) (r : Response) :
  (forall u, remote (sent w) u = Some r) ->
  status_code r = 200 ->
  let run := main API_URL TOKEN_KEY remote w in
  let raised := match json_body r with
                | None => JSONDecodeError
                | Some _ => TypeError
                end in
  match json_body r with
  | Some body => is_dict body = false
  | None => True
  end ->
  (forall c, fst (invoke remote c w) = Raise raised)
  /\ (answers_complete (stdin w) = true ->
      fst run = Raise raised
      /\ printed (console (snd run)) = printed (console w)).
Proof.
  intros Hreply Hstatus run raised Hkind.
  assert (Hmethod : forall c w0, sent w0 = sent w -> fst (invoke remote c w0) = Raise raised).
  { intros c w0 Hsent. unfold raised.
    destruct (json_body r) as [body|] eqn:Hbody.
    - apply (invoke_not_object c w0 r body); try assumption.
      now rewrite Hsent.
    - apply (invoke_not_json c w0 r); try assumption. now rewrite Hsent. }
  split.
  - intros c. now apply Hmethod.
  - intros Hcomplete.
    destruct (shell_after_method w Hcomplete) as (c & w2 & Hsent & Hout & Hprinted).
    unfold run. rewrite Hout, Hprinted, (Hmethod c w2 Hsent).
    now rewrite List.app_nil_r.
Qed.

(** *** Answers that are missing or unreadable *)

(** X8. A selector that [int] does not read ends the shell with [ValueError]
    right after the menu: no further prompt is shown, no further line is
    read, nothing is sent or printed. *)
Theorem unreadable_selector_is_fatal (w : World) (answer : string) (rest : list string) :
  stdin w = answer :: rest ->
  py_int answer = None ->
  let run := main API_URL TOKEN_KEY remote w in
  fst run = Raise ValueError
  /\ console (snd run) = (console w ++ [Prompted menu_prompt])%list
  /\ stdin (snd run) = rest
  /\ sent (snd run) = sent w.
Proof.
  intros Hin Hint run. unfold run, main.
  rewrite run_init, (run_input _ _ answer rest) by exact Hin.
  rewrite run_int_of_fails by exact Hint.
  repeat split.
Qed.

(** X9. When the console has no line at all, or fewer lines after the
    selector than the chosen option prompts for, the shell ends with
    [EOFError] once the lines are used up: nothing is sent or printed. *)
Theorem missing_answers_raise_EOFError (w : World) :
  let run := main API_URL TOKEN_KEY remote w in
  let stopped :=
    fst run = Raise EOFError
    /\ stdin (snd run) = []
    /\ sent (snd run) = sent w
    /\ printed (console (snd run)) = printed (console w) in
  (stdin w = [] -> stopped)
  /\ (forall answer lines n,
        stdin w = answer :: lines ->
        py_int answer = Some n ->
        (List.length lines < prompts_after n)%nat ->
        stopped).
Proof.
  intros run stopped. unfold stopped, run, main. clear stopped run.
  rewrite run_init. split.
  - intros Hin. rewrite run_input_eof by exact Hin. traffic. repeat split.
  - intros answer lines n Hin Hint Hfew.
    rewrite (run_input _ _ answer lines) by exact Hin.
    rewrite (run_int_of _ _ n) by exact Hint.
    unfold prompts_after in Hfew.
    destruct (n =? 1)%Z; [|destruct (n =? 2)%Z; [|destruct (n =? 3)%Z;
      [|destruct (n =? 4)%Z; [|inversion Hfew]]]].
    + destruct lines as [|l1 lines]; [|simpl in Hfew; lia].
      rewrite run_input_eof by reflexivity. traffic. repeat split.
    + destruct lines as [|l1 [|l2 lines]]; [| |simpl in Hfew; lia].
      * rewrite run_input_eof by reflexivity. traffic. repeat split.
      * rewrite (run_input _ _ l1 []) by reflexivity.
        rewrite run_input_eof by reflexivity. traffic. repeat split.
    + destruct lines as [|l1 [|l2 [|l3 lines]]]; [| | |simpl in Hfew; lia].
      * rewrite run_input_eof by reflexivity. traffic. repeat split.
      * rewrite (run_input _ _ l1 []) by reflexivity.
        rewrite run_input_eof by reflexivity. traffic. repeat split.
      * rewrite (run_input _ _ l1 [l2]) by reflexivity.
        rewrite (run_input _ _ l2 []) by reflexivity.
        rewrite run_input_eof by reflexivity. traffic. repeat split.
    + destruct lines as [|l1 [|l2 lines]]; [| |simpl in Hfew; lia].
      * rewrite run_input_eof by reflexivity. traffic. repeat split.
      * rewrite (run_input _ _ l1 []) by reflexivity.
        rewrite run_input_eof by reflexivity. traffic. repeat split.
Qed.

(** *** The latest-rates and the historical-rates options *)

(** X10. With option 1 and a currency code typed at the prompt, the shell
    sends exactly [{API_URL}{TOKEN_KEY}/latest/{currency}] and reads no
    further line; on a 200 answer whose body is a JSON object with the key
    'conversion_rates' it prints the indented JSON text of the rates and ends
    normally. *)
Theorem latest_rates_option_of_shell
  (w : World) (answer currency : string) (rest : list string) :
  stdin w = answer :: currency :: rest ->
  py_int answer = Some 1 ->
  let run := main API_URL TOKEN_KEY remote w in
  let request := API_URL ++ TOKEN_KEY ++ "/latest/" ++ currency in
  sent (snd run) = (sent w ++ [request])%list
  /\ stdin (snd run) = rest
  /\ (forall r items rates,
        remote (sent w) request = Some r ->
        status_code r = 200 ->
        json_body r = Some (PDict items) ->
        lookup "conversion_rates" items = Some rates ->
        fst run = Return tt
        /\ printed (console (snd run))
           = (printed (console w) ++ [PStr (json_dumps rates)])%list).
Proof.
  intros Hin Hint run request.
  destruct (main_selects w answer _ 1 Hin Hint)
    as (w1 & Hclient & Hstdin & Hconsole & Hsent & Hrun).
  pose (w2 := mkWorld (objects w1) (allocated w1) rest
                (console w1 ++ [Prompted currency_prompt])%list (sent w1)).
  assert (Hmain : run = (out <- get_ex_rates remote (allocated w) currency ;; print out) w2).
  { unfold run, main. rewrite Hrun. cbn [Z.eqb Pos.eqb].
    now rewrite (run_input _ _ currency rest) by exact Hstdin. }
  assert (Hurl : endpoint w2 (allocated w) ("/latest/" ++ currency) = request).
  { unfold endpoint, w2. cbn [objects]. now rewrite Hclient. }
  pose proof (get_ex_rates_world (allocated w) currency w2) as Hworld.
  rewrite Hurl in Hworld.
  rewrite Hmain, then_print.
  destruct (get_ex_rates remote (allocated w) currency w2) as [[v|e] w3] eqn:Hcall;
    cbn [snd] in Hworld; subst w3;
    (split; [unfold after_request, w2; traffic; now rewrite Hsent|]);
    (split; [reflexivity|]);
    intros r items rates Hreply Hstatus Hbody Hrates;
    assert (Hv : fst (get_ex_rates remote (allocated w) currency w2)
                 = Return (PStr (json_dumps rates)))
      by (unfold_method; fold (endpoint w2 (allocated w) ("/latest/" ++ currency));
          rewrite Hurl; cbn [w2 sent]; rewrite Hsent, Hreply, Hstatus;
          unfold_body; rewrite Hbody; cbn [getitem]; now rewrite Hrates);
    rewrite Hcall in Hv; cbn [fst] in Hv; [|discriminate Hv].
  injection Hv as ->. split; [reflexivity|].
  unfold after_request, w2. traffic. rewrite Hconsole. traffic.
Qed.

(** X11. With option 4, a currency code and a date whose three parts between
    hyphens [int] reads as y, m and d, the shell sends exactly
    [{API_URL}{TOKEN_KEY}/history/{currency}/{y}/{m}/{d}], the numbers
    written back in decimal whatever form they were typed in; on a 200 answer
    whose body is a JSON object with the key 'conversion_rates' it prints the
    indented JSON text of the rates and ends normally. *)
Theorem historical_option_of_shell
  (w : World) (answer currency date year month day : string) (rest : list string)
  (y m d : Z) :
  stdin w = answer :: currency :: date :: rest ->
  py_int answer = Some 4 ->
  split hyphen date = [year; month; day] ->
  py_int year = Some y ->
  py_int month = Some m ->
  py_int day = Some d ->
  let run := main API_URL TOKEN_KEY remote w in
  let request := API_URL ++ TOKEN_KEY ++ "/history/" ++ currency ++ "/" ++ str_int y ++ "/"
                         ++ str_int m ++ "/" ++ str_int d in
  sent (snd run) = (sent w ++ [request])%list
  /\ stdin (snd run) = rest
  /\ (forall r items rates,
        remote (sent w) request = Some r ->
        status_code r = 200 ->
        json_body r = Some (PDict items) ->
        lookup "conversion_rates" items = Some rates ->
        fst run = Return tt
        /\ printed (console (snd run))
           = (printed (console w) ++ [PStr (json_dumps rates)])%list).
Proof.
  intros Hin Hint Hparts Hy Hm Hd run request.
  destruct (main_selects w answer _ 4 Hin Hint)
    as (w1 & Hclient & Hstdin & Hconsole & Hsent & Hrun).
  pose (w2 := mkWorld (objects w1) (allocated w1) rest
                ((console w1 ++ [Prompted rate_prompt]) ++ [Prompted date_prompt])%list
                (sent w1)).
  assert (Hmain : run = (out <- get_ex_rates_at_specific_date remote (allocated w)
                                  currency y m d ;; print out) w2).
  { unfold run, main. rewrite Hrun. cbn [Z.eqb Pos.eqb].
    rewrite (run_input _ _ currency (date :: rest)) by exact Hstdin.
    rewrite (run_input _ _ date rest) by reflexivity.
    rewrite Hparts.
    rewrite (run_int_of _ _ y) by exact Hy.
    rewrite (run_int_of _ _ m) by exact Hm.
    now rewrite (run_int_of _ _ d) by exact Hd. }
  set (path := "/history/" ++ currency ++ "/" ++ str_int y ++ "/" ++ str_int m ++ "/"
                           ++ str_int d) in *.
  assert (Hurl : endpoint w2 (allocated w) path = request).
  { unfold endpoint, w2, request. cbn [objects]. now rewrite Hclient. }
  pose proof (get_ex_rates_at_specific_date_world (allocated w) currency y m d w2) as Hworld.
  fold path in Hworld. rewrite Hurl in Hworld.
  rewrite Hmain, then_print.
  destruct (get_ex_rates_at_specific_date remote (allocated w) currency y m d w2)
    as [[v|e] w3] eqn:Hcall;
    cbn [snd] in Hworld; subst w3;
    (split; [unfold after_request, w2; traffic; now rewrite Hsent|]);
    (split; [reflexivity|]);
    intros r items rates Hreply Hstatus Hbody Hrates;
    assert (Hv : fst (get_ex_rates_at_specific_date remote (allocated w) currency y m d w2)
                 = Return (PStr (json_dumps rates)))
      by (unfold_method; fold path; fold (endpoint w2 (allocated w) path);
          rewrite Hurl; cbn [w2 sent]; rewrite Hsent, Hreply, Hstatus;
          unfold_body; rewrite Hbody; cbn [getitem]; now rewrite Hrates);
    rewrite Hcall in Hv; cbn [fst] in Hv; [|discriminate Hv].
  injection Hv as ->. split; [reflexivity|].
  unfold after_request, w2. traffic. rewrite Hconsole. traffic.
Qed.

(** *** Which dates the shell accepts *)

Lemma split_without_separator (sep : ascii) (s : string) :
  contains sep s = false -> split sep s = [s].
Proof.
  induction s as [|c s IH]; simpl; [reflexivity|].
  intros Hno. apply orb_false_elim in Hno as [Hc Hs].
  rewrite Hc, (IH Hs). reflexivity.
Qed.

Lemma split_at_separator (sep : ascii) (a b : string) :
  contains sep a = false -> split sep (a ++ String sep b) = a :: split sep b.
Proof.
  induction a as [|c a IH]; simpl.
  - intros _. now rewrite Ascii.eqb_refl.
  - intros Hno. apply orb_false_elim in Hno as [Hc Ha].
    rewrite Hc, (IH Ha). reflexivity.
Qed.

Lemma split_parts (sep : ascii) (s : string) :
  String.concat (String sep EmptyString) (split sep s) = s
  /\ split sep s <> []
  /\ forall part, In part (split sep s) -> contains sep part = false.
Proof.
  induction s as [|c s (Hjoin & Hnonempty & Hparts)]; simpl.
  - repeat split; [discriminate|]. intros part [<-|[]]. reflexivity.
  - destruct (Ascii.eqb_spec c sep) as [->|Hc].
    + repeat split; [|discriminate|].
      * destruct (split sep s) as [|p ps]; [congruence|].
        simpl in *. now rewrite Hjoin.
      * intros part [<-|Hin]; [reflexivity|now apply Hparts].
    + destruct (split sep s) as [|p ps]; [congruence|].
      repeat split; [|discriminate|].
      * destruct ps; simpl in *; now rewrite Hjoin.
      * intros part [<-|Hin].
        -- simpl. apply Ascii.eqb_neq in Hc. rewrite Hc. apply Hparts. now left.
        -- apply Hparts. now right.
Qed.

(** X12. The shell accepts the text typed at the date prompt exactly when it
    is three parts joined by two hyphens, none of the parts containing a
    hyphen, and [int] reads each part; so a date with a third hyphen is never
    accepted. *)
Theorem accepted_date_shape (date : string) :
  date_well_formed date = true
  <-> exists year month day,
        date = year ++ "-" ++ month ++ "-" ++ day
        /\ contains hyphen year = false
        /\ contains hyphen month = false
        /\ contains hyphen day = false
        /\ py_int year <> None /\ py_int month <> None /\ py_int day <> None.
Proof.
  unfold date_well_formed. split.
  - destruct (split_parts hyphen date) as (Hjoin & _ & Hparts).
    destruct (split hyphen date) as [|year [|month [|day [|extra parts]]]];
      try discriminate.
    intros Hread. exists year, month, day.
    split; [symmetry; exact Hjoin|].
    repeat split; try (apply Hparts; simpl; tauto);
      destruct (py_int year), (py_int month), (py_int day); discriminate.
  - intros (year & month & day & -> & Hy & Hm & Hd & Ry & Rm & Rd).
    change (year ++ "-" ++ month ++ "-" ++ day)
      with (year ++ String hyphen (month ++ String hyphen day)).
    rewrite (split_at_separator _ _ _ Hy), (split_at_separator _ _ _ Hm),
      (split_without_separator _ _ Hd).
    destruct (py_int year), (py_int month), (py_int day); congruence.
Qed.

(** *** Several clients *)

(** X13. The constructor stores the token it is given and the base URL in a
    new client and leaves the clients that exist alone; of two clients built
    one after the other, each sends its requests with its own token. *)
Theorem clients_keep_their_own_token (w : World) (token1 token2 currency : string) :
  let built1 := CurrencyExchange_init API_URL token1 w in
  let built2 := CurrencyExchange_init API_URL token2 (snd built1) in
  let w2 := snd built2 in
  exists client1 client2,
    fst built1 = Return client1
    /\ fst built2 = Return client2
    /\ client1 <> client2
    /\ (forall other, (other < allocated w)%nat -> objects w2 other = objects w other)
    /\ sent (snd (get_ex_rates remote client1 currency w2))
       = (sent w ++ [(API_URL ++ token1 ++ "/latest/" ++ currency)%string])%list
    /\ sent (snd (get_ex_rates remote client2 currency w2))
       = (sent w ++ [(API_URL ++ token2 ++ "/latest/" ++ currency)%string])%list.
Proof.
  intros built1 built2 w2.
  exists (allocated w), (S (allocated w)).
  split; [reflexivity|]. split; [reflexivity|].
  split; [apply Nat.neq_succ_diag_r|].
  split.
  - intros other Hlt. unfold w2, built2, built1, CurrencyExchange_init. cbn [snd objects allocated].
    destruct (Nat.eqb_spec other (S (allocated w))); [lia|].
    destruct (Nat.eqb_spec other (allocated w)); [lia|reflexivity].
  - rewrite !get_ex_rates_world.
    unfold after_request, endpoint, w2, built2, built1, CurrencyExchange_init.
    cbn [snd objects allocated sent].
    rewrite !Nat.eqb_refl.
    destruct (Nat.eqb_spec (allocated w) (S (allocated w))); [lia|].
    split; reflexivity.
Qed.

End Properties.

(** ** Concrete runs

    The theorems above, applied to the interpreter fragment [Sample] with the
    base URL https://rates.example/v6/ and the token secret. *)

Import Sample.

(** Option 2 with USD typed first and EUR second asks for pair/EUR/USD, and
    not for pair/USD/EUR. *)
Lemma option2_USD_EUR_asks_for_EUR_USD :
  let reply := mkResponse 200 (Some (PDict [("conversion_rate", number 1 "23")])) in
  sent (snd (run reply ["2"; "USD"; "EUR"]))
  = ["https://rates.example/v6/secret/pair/EUR/USD"]
  /\ sent (snd (run reply ["2"; "USD"; "EUR"]))
     <> ["https://rates.example/v6/secret/pair/USD/EUR"].
Proof.
  intros reply.
  destruct (@pair_rate_request_is_reversed builtins API_URL TOKEN_KEY (always reply)
              (world ["2"; "USD"; "EUR"]) "2" "USD" "EUR" [] eq_refl eq_refl)
    as [Hsent Hdiffers].
  split; [exact Hsent|].
  apply Hdiffers; [reflexivity|discriminate].
Defined.

(** A 404 answer, whatever its body, gives the same error string from each
    of the four methods. *)
Lemma status_404_gives_error_string :
  let reply := mkResponse 404 (Some (PDict [("conversion_rates", PDict [])])) in
  let message := Return (PStr "Request error with status code: 404") in
  404 <> 200
  /\ fst (get_ex_rates (always reply) 0 "USD" client_world) = message
  /\ fst (get_ex_rate_for_currencies (always reply) 0 "EUR" "USD" client_world) = message
  /\ fst (exchange_from_to (always reply) 0 "USD" "EUR" (mkDecimal false 100 EmptyString)
            client_world) = message
  /\ fst (get_ex_rates_at_specific_date (always reply) 0 "USD" 2023 5 17 client_world)
     = message.
Proof.
  intros reply message.
  assert (Hstatus : status_code reply <> 200) by discriminate.
  destruct (@request_error_on_non_200 builtins (always reply) client_world 0 reply Hstatus)
    as (Hlatest & Hpair & Hconvert & Hhistory).
  split; [exact Hstatus|].
  split; [exact (Hlatest "USD" eq_refl)|].
  split; [exact (Hpair "EUR" "USD" eq_refl)|].
  split; [exact (Hconvert "USD" "EUR" (mkDecimal false 100 EmptyString) eq_refl)|].
  exact (Hhistory "USD" 2023 5 17 eq_refl).
Defined.

(** The body {"conversion_rates": {"EUR": 0.9}} with status 200 gives the
    three lines of indented JSON text. *)
Lemma latest_rates_EUR_text :
  let reply :=
    mkResponse 200 (Some (PDict [("conversion_rates", PDict [("EUR", number 0 "9")])])) in
  fst (get_ex_rates (always reply) 0 "USD" client_world)
  = Return (PStr ("{" ++ nl ++ "  " ++ dquote ++ "EUR" ++ dquote ++ ": 0.9" ++ nl ++ "}")).
Proof.
  intros reply.
  exact (proj1 (@latest_rates_returns_indented_json builtins (always reply) client_world 0
                  "USD" reply [("conversion_rates", PDict [("EUR", number 0 "9")])]
                  (PDict [("EUR", number 0 "9")]) eq_refl eq_refl eq_refl eq_refl)).
Defined.

(** Selector 5 prints Invalid input after the menu and sends nothing. *)
Lemma selector_5_is_invalid :
  let reply := mkResponse 200 None in
  fst (run reply ["5"]) = Return tt
  /\ console (snd (run reply ["5"]))
     = [Prompted menu_prompt; Printed (PStr "Invalid input")]
  /\ sent (snd (run reply ["5"])) = [].
Proof.
  intros reply.
  destruct (@invalid_selector_prints_invalid_input builtins API_URL TOKEN_KEY (always reply)
              (world ["5"]) "5" [] 5 eq_refl eq_refl)
    as (Hout & Hconsole & _ & Hsent & _); try discriminate.
  repeat split; assumption.
Defined.

(** Option 3 with USD, EUR and 100.0, answered by {"conversion_result": 91.4},
    asks for pair/USD/EUR/100.0 and prints 91.4. *)
Lemma convert_100_USD_to_EUR :
  let reply := mkResponse 200 (Some (PDict [("conversion_result", number 91 "4")])) in
  let lines := ["3"; "USD"; "EUR"; "100.0"] in
  sent (snd (run reply lines)) = ["https://rates.example/v6/secret/pair/USD/EUR/100.0"]
  /\ fst (run reply lines) = Return tt
  /\ printed (console (snd (run reply lines))) = [number 91 "4"]
  /\ fst (exchange_from_to (always reply) 0 "USD" "EUR" (mkDecimal false 100 EmptyString)
            client_world) = Return (number 91 "4").
Proof.
  intros reply lines.
  destruct (@conversion_request_and_result builtins API_URL TOKEN_KEY (always reply)
              (world lines) "3" "USD" "EUR" "100.0" [] (mkDecimal false 100 EmptyString)
              eq_refl eq_refl eq_refl)
    as (Hsent & Hshell & Hmethod).
  destruct (Hshell reply [("conversion_result", number 91 "4")] (number 91 "4")
              eq_refl eq_refl eq_refl eq_refl)
    as [Hout Hprinted].
  split; [exact Hsent|]. split; [exact Hout|]. split; [exact Hprinted|].
  exact (Hmethod 0%nat client_world reply [("conversion_result", number 91 "4")]
           (number 91 "4") eq_refl eq_refl eq_refl eq_refl).
Defined.

(** The same pair-rate call made twice against a service that always answers
    {"conversion_rate": 1.23} returns 1.23 both times. *)
Lemma pair_rate_twice :
  let reply := mkResponse 200 (Some (PDict [("conversion_rate", number 1 "23")])) in
  let call := Call_get_ex_rate_for_currencies 0 "EUR" "USD" in
  let first := invoke (always reply) call client_world in
  fst first = Return (number 1 "23")
  /\ fst (invoke (always reply) call (snd first)) = fst first.
Proof.
  intros reply call first.
  split; [reflexivity|].
  exact (@repeated_call_same_output builtins (always reply) call client_world
           (fun _ _ => eq_refl)).
Defined.

(** A date typed with slashes, a date whose month is not a number, and the
    amount abc each end the shell with ValueError before any request. *)
Lemma malformed_input_runs :
  let reply := mkResponse 200 None in
  (fst (run reply ["4"; "USD"; "2023/05/17"]) = Raise ValueError
   /\ sent (snd (run reply ["4"; "USD"; "2023/05/17"])) = []
   /\ printed (console (snd (run reply ["4"; "USD"; "2023/05/17"]))) = [])
  /\ (fst (run reply ["4"; "USD"; "2023-May-17"]) = Raise ValueError
      /\ sent (snd (run reply ["4"; "USD"; "2023-May-17"])) = []
      /\ printed (console (snd (run reply ["4"; "USD"; "2023-May-17"]))) = [])
  /\ (fst (run reply ["3"; "USD"; "EUR"; "abc"]) = Raise ValueError
      /\ sent (snd (run reply ["3"; "USD"; "EUR"; "abc"])) = []
      /\ printed (console (snd (run reply ["3"; "USD"; "EUR"; "abc"]))) = []).
Proof.
  intros reply.
  split; [|split].
  - exact (proj1 (@parse_failures_are_not_caught builtins API_URL TOKEN_KEY (always reply)
                    (world ["4"; "USD"; "2023/05/17"]) "4")
             "USD" "2023/05/17" [] eq_refl eq_refl eq_refl).
  - exact (proj1 (@parse_failures_are_not_caught builtins API_URL TOKEN_KEY (always reply)
                    (world ["4"; "USD"; "2023-May-17"]) "4")
             "USD" "2023-May-17" [] eq_refl eq_refl eq_refl).
  - exact (proj2 (@parse_failures_are_not_caught builtins API_URL TOKEN_KEY (always reply)
                    (world ["3"; "USD"; "EUR"; "abc"]) "3")
             "USD" "EUR" "abc" [] eq_refl eq_refl eq_refl).
Defined.

(** A 200 answer whose body is {"result": "error"} makes each method raise
    KeyError for the key it reads. *)
Lemma body_without_the_field :
  let reply := mkResponse 200 (Some (PDict [("result", PStr "error")])) in
  fst (get_ex_rates (always reply) 0 "USD" client_world)
  = Raise (KeyError "conversion_rates")
  /\ fst (get_ex_rate_for_currencies (always reply) 0 "EUR" "USD" client_world)
     = Raise (KeyError "conversion_rate")
  /\ fst (exchange_from_to (always reply) 0 "USD" "EUR" (mkDecimal false 100 EmptyString)
            client_world) = Raise (KeyError "conversion_result")
  /\ fst (get_ex_rates_at_specific_date (always reply) 0 "USD" 2023 5 17 client_world)
     = Raise (KeyError "conversion_rates").
Proof.
  intros reply.
  destruct (@missing_field_raises_KeyError builtins (always reply) client_world 0 reply
              [("result", PStr "error")] eq_refl eq_refl)
    as (Hlatest & Hpair & Hconvert & Hhistory).
  split; [exact (Hlatest "USD" eq_refl eq_refl)|].
  split; [exact (Hpair "EUR" "USD" eq_refl eq_refl)|].
  split; [exact (Hconvert "USD" "EUR" (mkDecimal false 100 EmptyString) eq_refl eq_refl)|].
  exact (Hhistory "USD" 2023 5 17 eq_refl eq_refl).
Defined.

(** *** Further runs *)

(** The pair-rate method called with target EUR and source USD asks for
    pair/USD/EUR and returns the rate 1.23 of the answer. *)
Lemma pair_rate_USD_EUR :
  let reply := mkResponse 200 (Some (PDict [("conversion_rate", number 1 "23")])) in
  get_ex_rate_for_currencies (always reply) 0 "EUR" "USD" client_world
  = (Return (number 1 "23"),
     after_request client_world "https://rates.example/v6/secret/pair/USD/EUR").
Proof.
  intros reply.
  exact (@pair_rate_request_and_result builtins (always reply) client_world 0%nat
           "EUR" "USD" reply [("conversion_rate", number 1 "23")] (number 1 "23")
           eq_refl eq_refl eq_refl eq_refl).
Defined.

(** The historical-rates method on the body {"conversion_rates": {"EUR": 0.9}}
    returns the same three lines as the latest-rates method. *)
Lemma historical_rates_EUR_text :
  let reply :=
    mkResponse 200 (Some (PDict [("conversion_rates", PDict [("EUR", number 0 "9")])])) in
  fst (get_ex_rates_at_specific_date (always reply) 0 "USD" 2023 5 17 client_world)
  = Return (PStr ("{" ++ nl ++ "  " ++ dquote ++ "EUR" ++ dquote ++ ": 0.9" ++ nl ++ "}")).
Proof.
  intros reply.
  exact (proj1 (@historical_rates_returns_indented_json builtins (always reply)
                  client_world 0%nat "USD" 2023 5 17 reply
                  [("conversion_rates", PDict [("EUR", number 0 "9")])]
                  (PDict [("EUR", number 0 "9")]) eq_refl eq_refl eq_refl eq_refl)).
Defined.

(** For a 404 answer there is a 200 answer on which the pair-rate and the
    conversion method return what they return on the 404. *)
Lemma a_200_that_reads_as_404 :
  let rejected := mkResponse 404 None in
  exists r200,
    status_code r200 = 200
    /\ forall served : list string -> string -> option Response,
        (forall u, served (sent client_world) u = Some r200) ->
        (forall u, always rejected (sent client_world) u = Some rejected) ->
        fst (get_ex_rate_for_currencies served 0 "EUR" "USD" client_world)
        = fst (get_ex_rate_for_currencies (always rejected) 0 "EUR" "USD" client_world)
        /\ fst (exchange_from_to served 0 "EUR" "USD" (mkDecimal false 100 EmptyString)
                  client_world)
           = fst (exchange_from_to (always rejected) 0 "EUR" "USD"
                    (mkDecimal false 100 EmptyString) client_world).
Proof.
  intros rejected.
  assert (Hstatus : status_code rejected <> 200) by discriminate.
  exact (@returned_value_does_not_tell_success builtins (always rejected) client_world
           0%nat "EUR" "USD" (mkDecimal false 100 EmptyString) rejected Hstatus).
Defined.

(** Option 1 for USD against a service that answers 404 prints the error
    string and ends normally. *)
Lemma option1_rejected_with_404 :
  let reply := mkResponse 404 None in
  fst (run reply ["1"; "USD"]) = Return tt
  /\ printed (console (snd (run reply ["1"; "USD"])))
     = [PStr "Request error with status code: 404"].
Proof.
  intros reply.
  assert (Hstatus : status_code reply <> 200) by discriminate.
  exact (@rejection_is_printed builtins API_URL TOKEN_KEY (always reply)
           (world ["1"; "USD"]) reply (fun _ => eq_refl) Hstatus eq_refl).
Defined.

(** Option 2 against a service that cannot be reached ends with the
    transport's exception and prints nothing. *)
Lemma option2_service_down :
  fst (main API_URL TOKEN_KEY down (world ["2"; "USD"; "EUR"])) = Raise ConnectionError
  /\ printed (console (snd (main API_URL TOKEN_KEY down (world ["2"; "USD"; "EUR"])))) = [].
Proof.
  exact (proj2 (@transport_failure_propagates builtins API_URL TOKEN_KEY down
                  (world ["2"; "USD"; "EUR"]) (fun _ => eq_refl)) eq_refl).
Defined.

(** A 200 answer that is not JSON ends option 1 with the decoder's exception,
    and a 200 answer that is a JSON list ends it with TypeError. *)
Lemma option1_body_not_an_object :
  fst (run (mkResponse 200 None) ["1"; "USD"]) = Raise JSONDecodeError
  /\ fst (run (mkResponse 200 (Some (PList []))) ["1"; "USD"]) = Raise TypeError.
Proof.
  split.
  - exact (proj1 (proj2 (@undecodable_body_raises builtins API_URL TOKEN_KEY
                           (always (mkResponse 200 None)) (world ["1"; "USD"])
                           (mkResponse 200 None) (fun _ => eq_refl) eq_refl I) eq_refl)).
  - exact (proj1 (proj2 (@undecodable_body_raises builtins API_URL TOKEN_KEY
                           (always (mkResponse 200 (Some (PList []))))
                           (world ["1"; "USD"]) (mkResponse 200 (Some (PList [])))
                           (fun _ => eq_refl) eq_refl eq_refl) eq_refl)).
Defined.

(** The selector typed as the word one ends the shell with ValueError; the
    line after it is not read. *)
Lemma selector_one_in_letters :
  let reply := mkResponse 200 None in
  fst (run reply ["one"; "USD"]) = Raise ValueError
  /\ console (snd (run reply ["one"; "USD"])) = [Prompted menu_prompt]
  /\ stdin (snd (run reply ["one"; "USD"])) = ["USD"]
  /\ sent (snd (run reply ["one"; "USD"])) = [].
Proof.
  intros reply.
  exact (@unreadable_selector_is_fatal builtins API_URL TOKEN_KEY (always reply)
           (world ["one"; "USD"]) "one" ["USD"] eq_refl eq_refl).
Defined.

(** An empty console, and option 3 without its amount, end the shell with
    EOFError before any request. *)
Lemma console_runs_dry :
  let reply := mkResponse 200 None in
  (fst (run reply []) = Raise EOFError /\ sent (snd (run reply [])) = [])
  /\ (fst (run reply ["3"; "USD"; "EUR"]) = Raise EOFError
      /\ sent (snd (run reply ["3"; "USD"; "EUR"])) = []).
Proof.
  intros reply. split.
  - destruct (proj1 (@missing_answers_raise_EOFError builtins API_URL TOKEN_KEY
                       (always reply) (world [])) eq_refl)
      as (Hout & _ & Hsent & _).
    split; assumption.
  - assert (Hfew : (List.length ["USD"; "EUR"] < prompts_after 3)%nat)
      by (apply Nat.ltb_lt; reflexivity).
    destruct (proj2 (@missing_answers_raise_EOFError builtins API_URL TOKEN_KEY
                       (always reply) (world ["3"; "USD"; "EUR"]))
                "3" ["USD"; "EUR"] 3 eq_refl eq_refl Hfew)
      as (Hout & _ & Hsent & _).
    split; assumption.
Defined.

(** Option 1 for USD, answered by {"conversion_rates": {"EUR": 0.9}}, asks
    for latest/USD and prints the three lines of JSON text. *)
Lemma option1_USD_rates :
  let rates := PDict [("EUR", number 0 "9")] in
  let reply := mkResponse 200 (Some (PDict [("conversion_rates", rates)])) in
  sent (snd (run reply ["1"; "USD"])) = ["https://rates.example/v6/secret/latest/USD"]
  /\ fst (run reply ["1"; "USD"]) = Return tt
  /\ printed (console (snd (run reply ["1"; "USD"])))
     = [PStr ("{" ++ nl ++ "  " ++ dquote ++ "EUR" ++ dquote ++ ": 0.9" ++ nl ++ "}")].
Proof.
  intros rates reply.
  destruct (@latest_rates_option_of_shell builtins API_URL TOKEN_KEY (always reply)
              (world ["1"; "USD"]) "1" "USD" [] eq_refl eq_refl)
    as (Hsent & _ & Hshell).
  destruct (Hshell reply [("conversion_rates", rates)] rates eq_refl eq_refl eq_refl eq_refl)
    as [Hout Hprinted].
  split; [exact Hsent|]. split; [exact Hout|exact Hprinted].
Defined.

(** Option 4 for USD with the date 2023-05-17 asks for history/USD/2023/5/17:
    the zero typed before the month is not sent. *)
Lemma option4_USD_on_2023_05_17 :
  let rates := PDict [("EUR", number 0 "9")] in
  let reply := mkResponse 200 (Some (PDict [("conversion_rates", rates)])) in
  let lines := ["4"; "USD"; "2023-05-17"] in
  sent (snd (run reply lines)) = ["https://rates.example/v6/secret/history/USD/2023/5/17"]
  /\ fst (run reply lines) = Return tt
  /\ printed (console (snd (run reply lines)))
     = [PStr ("{" ++ nl ++ "  " ++ dquote ++ "EUR" ++ dquote ++ ": 0.9" ++ nl ++ "}")].
Proof.
  intros rates reply lines.
  destruct (@historical_option_of_shell builtins API_URL TOKEN_KEY (always reply)
              (world lines) "4" "USD" "2023-05-17" "2023" "05" "17" [] 2023 5 17
              eq_refl eq_refl eq_refl eq_refl eq_refl eq_refl)
    as (Hsent & _ & Hshell).
  destruct (Hshell reply [("conversion_rates", rates)] rates eq_refl eq_refl eq_refl eq_refl)
    as [Hout Hprinted].
  split; [exact Hsent|]. split; [exact Hout|exact Hprinted].
Defined.
